(** * A shallow embedding of sosw-dynamodb's converters

    The development models [src/converters.py] ([dynamo_to_dict],
    [dict_to_dynamo]) and [src/helpers.py] ([to_bool]) together with the
    pieces of the Python runtime and of boto3 they rely on.

    Python values are the inductive [pyval].  Python dicts are association
    lists with the semantics of an insertion-ordered dict: [dict_get] returns
    the entry of the key, [dict_set] overwrites in place or appends.
    Python strings are [string]s of 8-bit characters, read as Latin-1
    code points.  Raised exceptions are the [Err] branch of [res]. *)

From Stdlib Require Import String Ascii List ZArith Bool Lia.
From Stdlib Require Import Numbers.DecimalString Numbers.DecimalPos.
Import ListNotations.
Open Scope string_scope.
Open Scope bool_scope.
Set Warnings "-register-all".

(** ** Python values and exceptions *)

(** A float is modelled by the exact decimal [dmant * 10 ^ dexp]; the
    binary rounding of IEEE doubles is not modelled. *)
Record decimal := mkdecimal { dmant : Z ; dexp : Z }.

Inductive pyval : Type :=
| PNone
| PBool (b : bool)
| PInt (z : Z)
| PFloat (d : decimal)
| PStr (s : string)
| PDict (kvs : list (string * pyval))
| PList (vs : list pyval)
(** a value built by boto3's deserializer for the tag [tag]
    ([Decimal], [Binary], [set]), kept opaque together with its payload *)
| PObj (tag : string) (payload : pyval).

Inductive pyexc : Type :=
| TypeError
| AttributeError
| ValueError
| KeyError
| PyException.

Inductive res (A : Type) : Type :=
| Ok (a : A)
| Err (e : pyexc).
Arguments Ok {A} a.
Arguments Err {A} e.

Definition bind {A B : Type} (m : res A) (k : A -> res B) : res B :=
  match m with
  | Ok a => k a
  | Err e => Err e
  end.

Notation "'let*' x := m 'in' k" := (bind m (fun x => k))
  (at level 200, x name, m at level 100, k at level 200).

Definition dict (A : Type) := list (string * A).

(** [d.get(k)] *)
Fixpoint dict_get {A : Type} (d : dict A) (k : string) : option A :=
  match d with
  | [] => None
  | (k', v) :: d' => if String.eqb k k' then Some v else dict_get d' k
  end.

(** [d[k] = v]: an existing key keeps its position. *)
Fixpoint dict_set {A : Type} (d : dict A) (k : string) (v : A) : dict A :=
  match d with
  | [] => [(k, v)]
  | (k', v') :: d' =>
      if String.eqb k k' then (k', v) :: d' else (k', v') :: dict_set d' k v
  end.

Definition dict_keys {A : Type} (d : dict A) : list string := map fst d.

(** A loop over a list whose body may raise. *)
Fixpoint for_res {A B : Type} (f : B -> A -> res B) (l : list A) (acc : B)
  : res B :=
  match l with
  | [] => Ok acc
  | x :: l' => let* acc' := f acc x in for_res f l' acc'
  end.

(** Truthiness, [bool(v)]; the opaque boto3 objects count as true. *)
Definition py_truthy (v : pyval) : bool :=
  match v with
  | PNone => false
  | PBool b => b
  | PInt z => negb (Z.eqb z 0)
  | PFloat d => negb (Z.eqb (dmant d) 0)
  | PStr s => negb (String.eqb s "")
  | PDict kvs => match kvs with [] => false | _ => true end
  | PList vs => match vs with [] => false | _ => true end
  | PObj _ _ => true
  end.

(** ** Python string methods *)

Definition code (c : ascii) : nat := nat_of_ascii c.

(** the double-quote character *)
Definition dquote : ascii := ascii_of_nat 34.

Definition is_digit (c : ascii) : bool := (48 <=? code c)%nat && (code c <=? 57)%nat.

Definition digit_val (c : ascii) : Z := Z.of_nat (code c - 48).

(** [str.isspace] on Latin-1 code points *)
Definition is_space (c : ascii) : bool :=
  let n := code c in
  ((9 <=? n) && (n <=? 13))%nat || ((28 <=? n) && (n <=? 32))%nat
  || (n =? 133)%nat || (n =? 160)%nat.

(** [str.isnumeric]: Latin-1 numeric characters are the ASCII digits,
    superscripts two, three and one, and the vulgar fractions. *)
Definition is_numeric_char (c : ascii) : bool :=
  let n := code c in
  is_digit c || (n =? 178)%nat || (n =? 179)%nat || (n =? 185)%nat
  || (n =? 188)%nat || (n =? 189)%nat || (n =? 190)%nat.

Fixpoint all_chars (f : ascii -> bool) (s : string) : bool :=
  match s with
  | EmptyString => true
  | String c s' => f c && all_chars f s'
  end.

Definition py_isnumeric (s : string) : bool :=
  match s with
  | EmptyString => false
  | _ => all_chars is_numeric_char s
  end.

(** [str.lower] on Latin-1 code points *)
Definition lower_char (c : ascii) : ascii :=
  let n := code c in
  if ((65 <=? n) && (n <=? 90))%nat || ((192 <=? n) && (n <=? 222) && negb (n =? 215))%nat
  then ascii_of_nat (n + 32) else c.

Fixpoint py_lower (s : string) : string :=
  match s with
  | EmptyString => EmptyString
  | String c s' => String (lower_char c) (py_lower s')
  end.

(** [c in s] for a one-character [c] *)
Fixpoint has_char (c : ascii) (s : string) : bool :=
  match s with
  | EmptyString => false
  | String c' s' => Ascii.eqb c c' || has_char c s'
  end.

Definition py_startswith (c : ascii) (s : string) : bool :=
  match s with
  | String c' _ => Ascii.eqb c c'
  | EmptyString => false
  end.

Fixpoint last_char (s : string) : option ascii :=
  match s with
  | EmptyString => None
  | String c EmptyString => Some c
  | String _ s' => last_char s'
  end.

Definition py_endswith (c : ascii) (s : string) : bool :=
  match last_char s with
  | Some c' => Ascii.eqb c c'
  | None => false
  end.

(** ** [int(s)] and [float(s)] on strings *)

Fixpoint strip_leading_space (cs : list ascii) : list ascii :=
  match cs with
  | c :: cs' => if is_space c then strip_leading_space cs' else cs
  | [] => []
  end.

(** [s.strip()], which [int] and [float] apply to their argument *)
Definition py_strip (s : string) : list ascii :=
  rev (strip_leading_space (rev (strip_leading_space (list_ascii_of_string s)))).

(** Digits with single underscores between them; returns the value, the
    number of digits and the rest of the input. *)
Fixpoint scan_digits (cs : list ascii) (acc : Z) (cnt : nat)
  : Z * nat * list ascii :=
  match cs with
  | c :: cs' =>
      if is_digit c then scan_digits cs' (acc * 10 + digit_val c)%Z (S cnt)
      else if Ascii.eqb c "_" then
        match cs' with
        | d :: cs'' =>
            if is_digit d then scan_digits cs'' (acc * 10 + digit_val d)%Z (S cnt)
            else (acc, cnt, cs)
        | [] => (acc, cnt, cs)
        end
      else (acc, cnt, cs)
  | [] => (acc, cnt, cs)
  end.

(** A digit group must start with a digit. *)
Definition parse_digits (cs : list ascii) : option (Z * nat * list ascii) :=
  match cs with
  | c :: _ => if is_digit c then Some (scan_digits cs 0%Z 0) else None
  | [] => None
  end.

Definition parse_sign (cs : list ascii) : Z * list ascii :=
  match cs with
  | c :: cs' =>
      if Ascii.eqb c "-" then ((-1)%Z, cs')
      else if Ascii.eqb c "+" then (1%Z, cs') else (1%Z, cs)
  | [] => (1%Z, cs)
  end.

(** [int(s)] for a [str] argument, base 10; [None] is a [ValueError]. *)
Definition py_int (s : string) : option Z :=
  let (sg, cs) := parse_sign (py_strip s) in
  match parse_digits cs with
  | Some (v, _, []) => Some (sg * v)%Z
  | _ => None
  end.

(** [float(s)] for a decimal literal.  The named values [inf] and [nan]
    have no exact decimal and are not modelled (the code below only calls
    [float] on strings containing a ['.'], which excludes them). *)
Definition py_float (s : string) : option decimal :=
  let (sg, cs) := parse_sign (py_strip s) in
  let '(ip, ni, cs1) :=
    match parse_digits cs with Some r => r | None => (0%Z, 0, cs) end in
  let '(fp, nf, cs2) :=
    match cs1 with
    | c :: cs1' =>
        if Ascii.eqb c "." then
          match parse_digits cs1' with Some r => r | None => (0%Z, 0, cs1') end
        else (0%Z, 0, cs1)
    | [] => (0%Z, 0, cs1)
    end in
  if (ni + nf =? 0)%nat then None else
  let mant := (sg * (ip * 10 ^ Z.of_nat nf + fp))%Z in
  match cs2 with
  | [] => Some (mkdecimal mant (- Z.of_nat nf))
  | e :: cs3 =>
      if Ascii.eqb e "e" || Ascii.eqb e "E" then
        let (esg, cs4) := parse_sign cs3 in
        match parse_digits cs4 with
        | Some (ev, _, []) => Some (mkdecimal mant (esg * ev - Z.of_nat nf))
        | _ => None
        end
      else None
  end.

(** ** [str(v)] and [repr(v)] *)

Definition Z_to_string (z : Z) : string := NilEmpty.string_of_int (Z.to_int z).

Fixpoint strip_zeros (fuel : nat) (m e : Z) : Z * Z :=
  match fuel with
  | O => (m, e)
  | S fuel' =>
      if Z.eqb (Z.rem m 10) 0 then strip_zeros fuel' (Z.quot m 10) (e + 1)%Z
      else (m, e)
  end.

Fixpoint zeros (n : nat) : string :=
  match n with O => "" | S n' => "0" ++ zeros n' end.

(** [repr] of a float: shortest digits [ds] and decimal point position
    [decpt] (value = 0.ds * 10^decpt); exponent notation when
    [decpt <= -4] or [decpt > 16]. *)
Definition float_repr (d : decimal) : string :=
  let m := dmant d in
  if Z.eqb m 0 then "0.0" else
  let sign := if (m <? 0)%Z then "-" else "" in
  let '(m', e') := strip_zeros (Z.to_nat (Z.log2_up (Z.abs m) + 1)) (Z.abs m) (dexp d) in
  let ds := Z_to_string m' in
  let n := Z.of_nat (String.length ds) in
  let decpt := (n + e')%Z in
  if ((decpt <=? -4) || (16 <? decpt))%Z then
    let x := (decpt - 1)%Z in
    let mant := match ds with
                | String c EmptyString => String c EmptyString
                | String c rest => String c ("." ++ rest)
                | EmptyString => EmptyString
                end in
    let ex := Z_to_string (Z.abs x) in
    let ex2 := if (Z.abs x <? 10)%Z then "0" ++ ex else ex in
    sign ++ mant ++ "e" ++ (if (x <? 0)%Z then "-" else "+") ++ ex2
  else if (decpt <=? 0)%Z then
    sign ++ "0." ++ zeros (Z.to_nat (- decpt)) ++ ds
  else if (n <=? decpt)%Z then
    sign ++ ds ++ zeros (Z.to_nat (decpt - n)) ++ ".0"
  else
    sign ++ substring 0 (Z.to_nat decpt) ds ++ "."
         ++ substring (Z.to_nat decpt) (Z.to_nat (n - decpt)) ds.

Definition hex_digit (n : nat) : ascii :=
  if (n <? 10)%nat then ascii_of_nat (48 + n) else ascii_of_nat (87 + n).

(** One character of [repr] of a string quoted with [q]. *)
Definition repr_char (q : ascii) (c : ascii) : string :=
  let n := code c in
  if Ascii.eqb c "\" then "\\"
  else if Ascii.eqb c q then String "\" (String c EmptyString)
  else if (n =? 9)%nat then "\t"
  else if (n =? 10)%nat then "\n"
  else if (n =? 13)%nat then "\r"
  else if (n <? 32)%nat || ((127 <=? n) && (n <=? 160))%nat || (n =? 173)%nat then
    String "\" (String "x" (String (hex_digit (n / 16)) (String (hex_digit (n mod 16)) EmptyString)))
  else String c EmptyString.

Fixpoint repr_chars (q : ascii) (s : string) : string :=
  match s with
  | EmptyString => EmptyString
  | String c s' => repr_char q c ++ repr_chars q s'
  end.

(** [repr] of a string: single quotes unless the string contains a single
    quote and no double quote. *)
Definition str_repr (s : string) : string :=
  let q := if has_char "'" s && negb (has_char dquote s) then dquote else "'"%char in
  String q (repr_chars q s ++ String q EmptyString).

Fixpoint join (sep : string) (l : list string) : string :=
  match l with
  | [] => ""
  | [x] => x
  | x :: l' => x ++ sep ++ join sep l'
  end.

Fixpoint py_repr (v : pyval) : string :=
  match v with
  | PNone => "None"
  | PBool true => "True"
  | PBool false => "False"
  | PInt z => Z_to_string z
  | PFloat d => float_repr d
  | PStr s => str_repr s
  | PDict kvs =>
      "{" ++ join ", " (map (fun '(k, x) => str_repr k ++ ": " ++ py_repr x) kvs) ++ "}"
  | PList vs => "[" ++ join ", " (map py_repr vs) ++ "]"
  | PObj _ p => py_repr p
  end.

(** [str(v)]: the string itself for a [str], [repr] otherwise. *)
Definition py_str (v : pyval) : string :=
  match v with
  | PStr s => s
  | _ => py_repr v
  end.

(** ** boto3's [TypeSerializer] and [TypeDeserializer]

    External library code, modelled for the tags the converters hand to it.
    [Decimal], [Binary] and [set] results are the opaque [PObj]. *)

(** [TypeDeserializer().deserialize(value)]: the first key of the dict
    selects [_deserialize_<key lowered>]. *)
Fixpoint type_deserialize (value : pyval) : res pyval :=
  match value with
  | PDict [] => Err TypeError
  | PDict ((t, p) :: _) =>
      let t' := py_lower t in
      if String.eqb t' "null" then Ok PNone
      else if String.eqb t' "bool" then Ok p
      else if String.eqb t' "s" then Ok p
      else if String.eqb t' "n" || String.eqb t' "b" || String.eqb t' "ns"
              || String.eqb t' "ss" || String.eqb t' "bs" then Ok (PObj t p)
      else if String.eqb t' "l" then
        match p with
        | PList vs =>
            let* ws := (fix go (vs : list pyval) : res (list pyval) :=
                          match vs with
                          | [] => Ok []
                          | v :: vs' =>
                              let* w := type_deserialize v in
                              let* ws := go vs' in Ok (w :: ws)
                          end) vs in
            Ok (PList ws)
        | _ => Err TypeError
        end
      else if String.eqb t' "m" then
        match p with
        | PDict kvs =>
            let* kws := (fix go (kvs : list (string * pyval)) : res (dict pyval) :=
                           match kvs with
                           | [] => Ok []
                           | (k, v) :: kvs' =>
                               let* w := type_deserialize v in
                               let* kws := go kvs' in Ok ((k, w) :: kws)
                           end) kvs in
            Ok (PDict kws)
        | _ => Err AttributeError
        end
      else Err TypeError
  | v => if py_truthy v then Err AttributeError else Err TypeError
  end.

(** [TypeSerializer().serialize(value)] *)
Fixpoint type_serialize (value : pyval) : res pyval :=
  match value with
  | PNone => Ok (PDict [("NULL", PBool true)])
  | PBool b => Ok (PDict [("BOOL", PBool b)])
  | PInt z => Ok (PDict [("N", PStr (Z_to_string z))])
  | PFloat _ => Err TypeError
  | PStr s => Ok (PDict [("S", PStr s)])
  | PObj t p => Ok (PDict [(t, p)])
  | PDict kvs =>
      let* kws := (fix go (kvs : list (string * pyval)) : res (dict pyval) :=
                     match kvs with
                     | [] => Ok []
                     | (k, v) :: kvs' =>
                         let* w := type_serialize v in
                         let* kws := go kvs' in Ok ((k, w) :: kws)
                     end) kvs in
      Ok (PDict [("M", PDict kws)])
  | PList vs =>
      let* ws := (fix go (vs : list pyval) : res (list pyval) :=
                    match vs with
                    | [] => Ok []
                    | v :: vs' =>
                        let* w := type_serialize v in
                        let* ws := go vs' in Ok (w :: ws)
                    end) vs in
      Ok (PDict [("L", PList ws)])
  end.

(** ** [helpers.to_bool] *)

Definition to_bool (val : pyval) : res bool :=
  match val with
  | PBool _ | PInt _ | PFloat _ => Ok (py_truthy val)
  | PStr s =>
      let l := py_lower s in
      if String.eqb l "true" || String.eqb l "1" then Ok true
      else if String.eqb l "false" || String.eqb l "0" then Ok false
      else Err PyException
  | _ => Err PyException
  end.

(** ** A model of [json.loads]

    The decoder is stated for every parser [json_loads : string -> option
    pyval] ([None] standing for the [ValueError] raised on malformed input).
    [json_loads_model] below is one concrete parser for RFC 8259 JSON
    without [\u] escapes, used to run the decoder on examples. *)

Definition json_ws (c : ascii) : bool :=
  let n := code c in (n =? 32)%nat || (n =? 9)%nat || (n =? 10)%nat || (n =? 13)%nat.

Fixpoint skip_ws (cs : list ascii) : list ascii :=
  match cs with
  | c :: cs' => if json_ws c then skip_ws cs' else cs
  | [] => []
  end.

Fixpoint json_string_body (cs acc : list ascii) : option (string * list ascii) :=
  match cs with
  | [] => None
  | c :: cs' =>
      if Ascii.eqb c dquote then Some (string_of_list_ascii (rev acc), cs')
      else if Ascii.eqb c "\" then
        match cs' with
        | e :: cs'' =>
            let esc :=
              if Ascii.eqb e dquote || Ascii.eqb e "\" || Ascii.eqb e "/" then Some e
              else if Ascii.eqb e "b" then Some (ascii_of_nat 8)
              else if Ascii.eqb e "f" then Some (ascii_of_nat 12)
              else if Ascii.eqb e "n" then Some (ascii_of_nat 10)
              else if Ascii.eqb e "r" then Some (ascii_of_nat 13)
              else if Ascii.eqb e "t" then Some (ascii_of_nat 9)
              else None in
            match esc with
            | Some x => json_string_body cs'' (x :: acc)
            | None => None
            end
        | [] => None
        end
      else if (code c <? 32)%nat then None
      else json_string_body cs' (c :: acc)
  end.

Fixpoint scan_plain (cs : list ascii) (acc : Z) (cnt : nat) : Z * nat * list ascii :=
  match cs with
  | c :: cs' => if is_digit c then scan_plain cs' (acc * 10 + digit_val c)%Z (S cnt)
                else (acc, cnt, cs)
  | [] => (acc, cnt, cs)
  end.

Definition json_number (cs : list ascii) : option (pyval * list ascii) :=
  let '(sg, cs1) := match cs with
                    | c :: r => if Ascii.eqb c "-" then ((-1)%Z, r) else (1%Z, cs)
                    | [] => (1%Z, cs)
                    end in
  let ip :=
    match cs1 with
    | c :: r => if Ascii.eqb c "0" then Some (0%Z, r)
                else if is_digit c then
                  let '(v, _, r') := scan_plain cs1 0%Z 0 in Some (v, r')
                else None
    | [] => None
    end in
  match ip with
  | None => None
  | Some (iv, cs2) =>
      let fr :=
        match cs2 with
        | c :: r => if Ascii.eqb c "." then
                      let '(fv, nf, r') := scan_plain r 0%Z 0 in
                      if (nf =? 0)%nat then None else Some (true, fv, nf, r')
                    else Some (false, 0%Z, 0, cs2)
        | [] => Some (false, 0%Z, 0, cs2)
        end in
      match fr with
      | None => None
      | Some (hasf, fv, nf, cs3) =>
          let mant := (sg * (iv * 10 ^ Z.of_nat nf + fv))%Z in
          match cs3 with
          | c :: r =>
              if Ascii.eqb c "e" || Ascii.eqb c "E" then
                let '(esg, r1) := match r with
                                  | d :: r' => if Ascii.eqb d "-" then ((-1)%Z, r')
                                               else if Ascii.eqb d "+" then (1%Z, r')
                                               else (1%Z, r)
                                  | [] => (1%Z, r)
                                  end in
                let '(ev, ne, r2) := scan_plain r1 0%Z 0 in
                if (ne =? 0)%nat then None
                else Some (PFloat (mkdecimal mant (esg * ev - Z.of_nat nf)), r2)
              else if hasf then Some (PFloat (mkdecimal mant (- Z.of_nat nf)), cs3)
              else Some (PInt mant, cs3)
          | [] => if hasf then Some (PFloat (mkdecimal mant (- Z.of_nat nf)), cs3)
                  else Some (PInt mant, cs3)
          end
      end
  end.

Fixpoint strip_literal (lit : list ascii) (cs : list ascii) : option (list ascii) :=
  match lit, cs with
  | [], _ => Some cs
  | l :: lit', c :: cs' => if Ascii.eqb l c then strip_literal lit' cs' else None
  | _ :: _, [] => None
  end.

Fixpoint json_value (fuel : nat) (cs : list ascii) : option (pyval * list ascii) :=
  match fuel with
  | O => None
  | S f =>
      match skip_ws cs with
      | [] => None
      | c :: r =>
          if Ascii.eqb c "{" then
            match skip_ws r with
            | d :: r' => if Ascii.eqb d "}" then Some (PDict [], r') else
                (fix members (g : nat) (cs : list ascii) (acc : dict pyval) :=
                   match g with
                   | O => None
                   | S g' =>
                       match skip_ws cs with
                       | q :: r1 =>
                           if Ascii.eqb q dquote then
                             match json_string_body r1 [] with
                             | Some (k, r2) =>
                                 match skip_ws r2 with
                                 | col :: r3 =>
                                     if Ascii.eqb col ":" then
                                       match json_value f r3 with
                                       | Some (v, r4) =>
                                           let acc' := dict_set acc k v in
                                           match skip_ws r4 with
                                           | e :: r5 =>
                                               if Ascii.eqb e "," then members g' r5 acc'
                                               else if Ascii.eqb e "}" then Some (PDict acc', r5)
                                               else None
                                           | [] => None
                                           end
                                       | None => None
                                       end
                                     else None
                                 | [] => None
                                 end
                             | None => None
                             end
                           else None
                       | [] => None
                       end
                   end) f r []
            | [] => None
            end
          else if Ascii.eqb c "[" then
            match skip_ws r with
            | d :: r' => if Ascii.eqb d "]" then Some (PList [], r') else
                (fix elems (g : nat) (cs : list ascii) (acc : list pyval) :=
                   match g with
                   | O => None
                   | S g' =>
                       match json_value f cs with
                       | Some (v, r4) =>
                           match skip_ws r4 with
                           | e :: r5 =>
                               if Ascii.eqb e "," then elems g' r5 (app acc [v])
                               else if Ascii.eqb e "]" then Some (PList (app acc [v]), r5)
                               else None
                           | [] => None
                           end
                       | None => None
                       end
                   end) f r []
            | [] => None
            end
          else if Ascii.eqb c dquote then
            match json_string_body r [] with
            | Some (s, r') => Some (PStr s, r')
            | None => None
            end
          else
            match strip_literal (list_ascii_of_string "true") (c :: r) with
            | Some r' => Some (PBool true, r')
            | None =>
            match strip_literal (list_ascii_of_string "false") (c :: r) with
            | Some r' => Some (PBool false, r')
            | None =>
            match strip_literal (list_ascii_of_string "null") (c :: r) with
            | Some r' => Some (PNone, r')
            | None => json_number (c :: r)
            end end end
      end
  end.

Definition json_loads_model (s : string) : option pyval :=
  let cs := list_ascii_of_string s in
  match json_value (S (List.length cs)) cs with
  | Some (v, rest) => match skip_ws rest with [] => Some v | _ => None end
  | None => None
  end.

(** The JSON text [{"a": 1}] *)
Definition json_a1 : string := "{" ++ String dquote ("a" ++ String dquote ": 1}").

(** ** [converters.dynamo_to_dict] *)

Section Decoder.

(** [json.loads] on a [str]; [None] is the [ValueError] it raises. *)
Variable json_loads : string -> option pyval.

(** The ['N'] branch: [float(val) if '.' in val else int(val)].
    A non-[str] payload raises a [TypeError] (in [in] or in [int]). *)
Definition decode_N (val : pyval) : res pyval :=
  match val with
  | PStr s =>
      if has_char "." s then
        match py_float s with Some d => Ok (PFloat d) | None => Err ValueError end
      else
        match py_int s with Some z => Ok (PInt z) | None => Err ValueError end
  | _ => Err TypeError
  end.

(** The ['S'] branch: a JSON-looking string is handed to [json.loads];
    a [ValueError] is caught (after a warning) and the raw string kept.
    A non-[str] payload has no [startswith]. *)
Definition decode_S (dont_json_loads_results : bool) (val : pyval) : res pyval :=
  match val with
  | PStr s =>
      if py_startswith "{" s && py_endswith "}" s && negb dont_json_loads_results then
        match json_loads s with
        | Some v => Ok v
        | None => Ok (PStr s)
        end
      else Ok (PStr s)
  | _ => Err AttributeError
  end.

(** The fetch-all branch, [fetch_all_fields] true: every field, every
    [(val_type, val)] of its tagged value.  The ['M'] case is the call
    [dynamo_to_dict(val, row_mapper=row_mapper, fetch_all_fields=True)],
    whose [dont_json_loads_results] is the default [None]. *)
Fixpoint decode_all (dynamo_row : pyval) (row_mapper : dict string)
         (dont_json_loads_results : bool) {struct dynamo_row} : res (dict pyval) :=
  match dynamo_row with
  | PDict entries =>
      (fix rows (es : list (string * pyval)) (result : dict pyval) : res (dict pyval) :=
         match es with
         | [] => Ok result
         | (key, val_dict) :: es' =>
             match val_dict with
             | PDict tvs =>
                 let* result' :=
                   (fix tags (ts : list (string * pyval)) (result : dict pyval)
                      : res (dict pyval) :=
                      match ts with
                      | [] => Ok result
                      | (val_type, val) :: ts' =>
                          let* v :=
                            if String.eqb val_type "N" then decode_N val
                            else if String.eqb val_type "M" then
                              let* d := decode_all val row_mapper false in Ok (PDict d)
                            else if String.eqb val_type "S" then
                              decode_S dont_json_loads_results val
                            else type_deserialize val_dict in
                          tags ts' (dict_set result key v)
                      end) tvs result in
                 rows es' result'
             | _ => Err AttributeError
             end
         end) entries []
  | _ => Err AttributeError
  end.

(** [d.get(k)] on a Python value that must be a dict *)
Definition py_get (d : pyval) (k : string) : res pyval :=
  match d with
  | PDict kvs => Ok (match dict_get kvs k with Some v => v | None => PNone end)
  | _ => Err AttributeError
  end.

(** The default branch, [fetch_all_fields] falsy: one step per
    [(key, key_type)] of [row_mapper]. *)
Definition decode_mapped_field (dynamo_row : pyval) (row_mapper : dict string)
           (dont_json_loads_results : bool) (result : dict pyval)
           (kt : string * string) : res (dict pyval) :=
  let (key, key_type) := kt in
  let* val_dict := py_get dynamo_row key in
  if py_truthy val_dict then
    let* val := py_get val_dict key_type in
    let* v :=
      if String.eqb key_type "N" then decode_N val
      else if String.eqb key_type "M" then
        let* d := decode_all val row_mapper false in Ok (PDict d)
      else if String.eqb key_type "S" then decode_S dont_json_loads_results val
      else type_deserialize val_dict in
    Ok (dict_set result key v)
  else Ok result.

Definition dynamo_to_dict (dynamo_row : pyval) (row_mapper : dict string)
           (fetch_all_fields : bool) (dont_json_loads_results : bool)
  : res (dict pyval) :=
  if negb fetch_all_fields then
    for_res (decode_mapped_field dynamo_row row_mapper dont_json_loads_results)
            row_mapper []
  else decode_all dynamo_row row_mapper dont_json_loads_results.

End Decoder.

(** ** [converters.dict_to_dynamo] *)

(** The one-argument call [dict_to_dynamo(val)] made for nested dicts:
    [row_mapper] has no default, so Python raises [TypeError] (missing
    required positional argument) before the body runs. *)
Definition dict_to_dynamo_missing_row_mapper (row_dict : pyval) : res (dict pyval) :=
  Err TypeError.

(** Schema pass: the value for a field declared with [key_type]. *)
Definition encode_mapped (key_type : string) (val : pyval) : res pyval :=
  if String.eqb key_type "BOOL" then
    let* b := to_bool val in Ok (PDict [("BOOL", PBool b)])
  else if String.eqb key_type "N" then Ok (PDict [("N", PStr (py_str val))])
  else if String.eqb key_type "S" then Ok (PDict [("S", PStr (py_str val))])
  else if String.eqb key_type "M" then
    let* d := dict_to_dynamo_missing_row_mapper val in Ok (PDict [("M", PDict d)])
  else type_serialize val.

(** Unmapped pass: the value inferred from the runtime type of [val]. *)
Definition encode_unmapped (val : pyval) : res pyval :=
  match val with
  | PBool _ => let* b := to_bool val in Ok (PDict [("BOOL", PBool b)])
  | PInt _ | PFloat _ => Ok (PDict [("N", PStr (py_str val))])
  | PStr s =>
      if py_isnumeric s then Ok (PDict [("N", PStr (py_str val))])
      else Ok (PDict [("S", PStr (py_str val))])
  | PDict _ =>
      let* d := dict_to_dynamo_missing_row_mapper val in Ok (PDict [("M", PDict d)])
  | _ => type_serialize val
  end.

Definition schema_step (row_dict : dict pyval) (add_prefix : string)
           (result : dict pyval) (kt : string * string) : res (dict pyval) :=
  let (key, key_type) := kt in
  match dict_get row_dict key with
  | None | Some PNone => Ok result
  | Some val =>
      let* w := encode_mapped key_type val in
      Ok (dict_set result (add_prefix ++ key) w)
  end.

Definition unmapped_step (row_dict : dict pyval) (add_prefix : string)
           (result : dict pyval) (key : string) : res (dict pyval) :=
  let val := match dict_get row_dict key with Some v => v | None => PNone end in
  let* w := encode_unmapped val in
  Ok (dict_set result (add_prefix ++ key) w).

(** [x[len(add_prefix):]] *)
Definition strip_prefix (add_prefix x : string) : string :=
  substring (String.length add_prefix) (String.length x - String.length add_prefix) x.

(** [list(set(row_dict.keys()) - set(result_keys))]; the iteration order
    of a Python set is not modelled, the keys are taken in [row_dict]'s
    order (each output key is written once, so the resulting dict does not
    depend on it). *)
Definition unmapped_keys (row_dict : dict pyval) (result_keys : list string) : list string :=
  filter (fun k => negb (existsb (String.eqb k) result_keys)) (dict_keys row_dict).

Definition dict_to_dynamo (row_dict : dict pyval) (row_mapper : dict string)
           (add_prefix : option string) : res (dict pyval) :=
  let add_prefix := match add_prefix with None => "" | Some p => p end in
  let* result := for_res (schema_step row_dict add_prefix) row_mapper [] in
  let result_keys :=
    if negb (String.eqb add_prefix "") then map (strip_prefix add_prefix) (dict_keys result)
    else dict_keys result in
  for_res (unmapped_step row_dict add_prefix) (unmapped_keys row_dict result_keys) result.

(** * Properties *)

(** ** Dicts and loops *)

Lemma dict_get_set_same {A : Type} (d : dict A) k v :
  dict_get (dict_set d k v) k = Some v.
Proof.
  induction d as [|[k' v'] d IH]; simpl.
  - now rewrite String.eqb_refl.
  - destruct (String.eqb k k') eqn:E; simpl.
    + now rewrite E.
    + now rewrite E.
Qed.

Lemma dict_get_set_other {A : Type} (d : dict A) k k' v :
  k <> k' -> dict_get (dict_set d k' v) k = dict_get d k.
Proof.
  intro Hne. induction d as [|[k0 v0] d IH]; simpl.
  - destruct (String.eqb k k') eqn:E; [apply String.eqb_eq in E; congruence|reflexivity].
  - destruct (String.eqb k' k0) eqn:E'; simpl.
    + apply String.eqb_eq in E'; subst k0.
      destruct (String.eqb k k') eqn:E; [apply String.eqb_eq in E; congruence|reflexivity].
    + destruct (String.eqb k k0); [reflexivity|exact IH].
Qed.

Lemma dict_keys_set {A : Type} (d : dict A) k v x :
  In x (dict_keys (dict_set d k v)) <-> In x (dict_keys d) \/ x = k.
Proof.
  induction d as [|[k0 v0] d IH]; simpl.
  - intuition congruence.
  - destruct (String.eqb k k0) eqn:E; simpl.
    + apply String.eqb_eq in E; subst k0. intuition congruence.
    + rewrite IH. tauto.
Qed.

Lemma dict_get_in_keys {A : Type} (d : dict A) k v :
  dict_get d k = Some v -> In k (dict_keys d).
Proof.
  induction d as [|[k0 v0] d IH]; simpl; [discriminate|].
  destruct (String.eqb k k0) eqn:E.
  - apply String.eqb_eq in E. auto.
  - auto.
Qed.

Lemma dict_get_not_in_keys {A : Type} (d : dict A) k :
  dict_get d k = None -> ~ In k (dict_keys d).
Proof.
  induction d as [|[k0 v0] d IH]; simpl; [auto|].
  destruct (String.eqb k k0) eqn:E; [discriminate|].
  intros H [H'|H']; [subst; now rewrite String.eqb_refl in E|exact (IH H H')].
Qed.

(** Induction along a loop that did not raise. *)
Lemma for_res_inv {A B : Type} (f : B -> A -> res B) (P : list A -> B -> Prop) :
  forall l done acc r,
    (forall done' x acc acc', P done' acc -> f acc x = Ok acc' -> P (done' ++ [x])%list acc') ->
    P done acc -> for_res f l acc = Ok r -> P (done ++ l)%list r.
Proof.
  induction l as [|x l IH]; intros done acc r Hstep H0 Hrun; simpl in Hrun.
  - inversion Hrun; subst. now rewrite app_nil_r.
  - destruct (f acc x) as [acc'|e] eqn:Hf; simpl in Hrun; [|discriminate].
    replace (done ++ x :: l)%list with ((done ++ [x]) ++ l)%list
      by (rewrite <- app_assoc; reflexivity).
    eapply IH; eauto.
Qed.

(** A loop raises when one of its steps raises whatever the accumulator. *)
Lemma for_res_err {A B : Type} (f : B -> A -> res B) :
  forall l x acc, In x l -> (forall acc, exists e, f acc x = Err e) ->
  exists e, for_res f l acc = Err e.
Proof.
  induction l as [|y l IH]; intros x acc Hin Hx; [destruct Hin|].
  simpl. destruct Hin as [->|Hin].
  - destruct (Hx acc) as [e He]. rewrite He. now exists e.
  - destruct (f acc y) as [acc'|e]; simpl; [eapply IH; eauto|now exists e].
Qed.

(** ** Prefixes *)

Lemma substring_all s : substring 0 (String.length s) s = s.
Proof. induction s; simpl; congruence. Qed.

Lemma strip_prefix_empty x : strip_prefix "" x = x.
Proof. unfold strip_prefix. simpl. rewrite Nat.sub_0_r. apply substring_all. Qed.

Lemma strip_prefix_app p k : strip_prefix p (p ++ k) = k.
Proof.
  induction p as [|c p IH].
  - apply strip_prefix_empty.
  - unfold strip_prefix in *. simpl. exact IH.
Qed.



Lemma append_inj_l p k1 k2 : p ++ k1 = p ++ k2 -> k1 = k2.
Proof. induction p as [|c p IH]; simpl; [auto|intro H; inversion H; auto]. Qed.

Lemma prefix_app p k : String.prefix p (p ++ k) = true.
Proof.
  induction p as [|c p IH]; simpl.
  - destruct k; reflexivity.
  - destruct (ascii_dec c c) as [_|n]; [exact IH|congruence].
Qed.

(** ** The two passes of [dict_to_dynamo] *)

Section Encoder.

Variable row_dict : dict pyval.
Variable add_prefix : string.

(** A native field that the schema pass writes: declared and not [None]. *)
Definition mapped_present (row_mapper : dict string) (key : string) : Prop :=
  In key (dict_keys row_mapper) /\
  exists v, dict_get row_dict key = Some v /\ v <> PNone.

Definition native_val (key : string) : pyval :=
  match dict_get row_dict key with Some v => v | None => PNone end.

Lemma mapped_present_snoc row_mapper key key_type k :
  mapped_present (row_mapper ++ [(key, key_type)])%list k <->
  mapped_present row_mapper k \/
  (k = key /\ exists v, dict_get row_dict key = Some v /\ v <> PNone).
Proof.
  unfold mapped_present, dict_keys. rewrite map_app, in_app_iff. simpl.
  split.
  - intros [[H|[H|[]]] Hv]; [left; auto|right; subst; auto].
  - intros [[H Hv]|[H Hv]]; subst; auto.
Qed.

Lemma schema_step_cases acc key key_type acc' :
  schema_step row_dict add_prefix acc (key, key_type) = Ok acc' ->
  (acc' = acc /\ ~ exists v, dict_get row_dict key = Some v /\ v <> PNone) \/
  (exists w, acc' = dict_set acc (add_prefix ++ key) w /\
             exists v, dict_get row_dict key = Some v /\ v <> PNone).
Proof.
  simpl. destruct (dict_get row_dict key) as [val|] eqn:Hg.
  - destruct val;
      try (destruct (encode_mapped _ _) as [w|e]; simpl; intro H; [|discriminate];
           inversion H; subst; right; exists w; split; [reflexivity|];
           eexists; split; [reflexivity|discriminate]).
    intro H; inversion H; subst. left. split; [reflexivity|].
    intros [v [Hv Hn]]. inversion Hv; subst. congruence.
  - intro H; inversion H; subst. left. split; [reflexivity|].
    intros [v [Hv _]]. discriminate.
Qed.

Lemma schema_pass_keys row_mapper result :
  for_res (schema_step row_dict add_prefix) row_mapper [] = Ok result ->
  forall k, In k (dict_keys result) <->
            exists key, mapped_present row_mapper key /\ k = add_prefix ++ key.
Proof.
  intro Hrun.
  pose (P := fun (done : dict string) (acc : dict pyval) =>
    forall k, In k (dict_keys acc) <->
              exists key, mapped_present done key /\ k = add_prefix ++ key).
  assert (HP : P ([] ++ row_mapper)%list result).
  { eapply for_res_inv; [| |exact Hrun].
    - intros done [key key_type] acc acc' Hacc Hstep. unfold P in *. intro k.
      destruct (schema_step_cases _ _ _ _ Hstep) as [[-> Hn]|[w [-> Hv]]].
      + rewrite (Hacc k).
        split; intros [key' [H1 H2]]; exists key'; split; auto.
        * apply mapped_present_snoc; auto.
        * apply mapped_present_snoc in H1. destruct H1 as [H1|[H1 H3]]; [exact H1|].
          subst key'. contradiction.
      + rewrite dict_keys_set, (Hacc k).
        split.
        * intros [[key' [H1 H2]]|H].
          -- exists key'. split; auto. apply mapped_present_snoc; auto.
          -- exists key. split; auto. apply mapped_present_snoc; auto.
        * intros [key' [H1 H2]]. apply mapped_present_snoc in H1.
          destruct H1 as [H1|[H1 H3]]; [left; eauto|right; congruence].
    - unfold P. intro k. unfold mapped_present. simpl.
      split; [intros []|intros [key [[[] _] _]]]. }
  exact HP.
Qed.

Lemma unmapped_pass_keys keys acc result :
  for_res (unmapped_step row_dict add_prefix) keys acc = Ok result ->
  forall k, In k (dict_keys result) <->
            In k (dict_keys acc) \/ exists k0, In k0 keys /\ k = add_prefix ++ k0.
Proof.
  intro Hrun.
  pose (P := fun (done : list string) (acc' : dict pyval) =>
    forall k, In k (dict_keys acc') <->
              In k (dict_keys acc) \/ exists k0, In k0 done /\ k = add_prefix ++ k0).
  assert (HP : P ([] ++ keys)%list result).
  { eapply for_res_inv; [| |exact Hrun].
    - intros done x a a' Ha Hstep. unfold P in *. intro k. unfold unmapped_step in Hstep.
      destruct (encode_unmapped _) as [w|e]; simpl in Hstep; [|discriminate].
      inversion Hstep; subst a'.
      rewrite dict_keys_set, (Ha k).
      split.
      + intros [[H|[k0 [H1 H2]]]|H]; [auto|right; exists k0; rewrite in_app_iff; auto|].
        right. exists x. rewrite in_app_iff. simpl. auto.
      + intros [H|[k0 [H1 H2]]]; [auto|]. rewrite in_app_iff in H1.
        destruct H1 as [H1|[H1|[]]]; [left; right; eauto|subst; auto].
    - unfold P. intro k. simpl. split; [auto|intros [H|[k0 [[] _]]]; auto]. }
  exact HP.
Qed.

Lemma unmapped_pass_get keys acc result f :
  for_res (unmapped_step row_dict add_prefix) keys acc = Ok result ->
  In f keys ->
  exists w, encode_unmapped (native_val f) = Ok w /\
            dict_get result (add_prefix ++ f) = Some w.
Proof.
  intros Hrun Hin.
  pose (P := fun (done : list string) (a : dict pyval) =>
    forall k, In k done -> exists w, encode_unmapped (native_val k) = Ok w /\
                                     dict_get a (add_prefix ++ k) = Some w).
  assert (HP : P ([] ++ keys)%list result).
  { eapply for_res_inv; [| |exact Hrun].
    - intros done x a a' Ha Hstep. unfold P in *. intros k Hk. unfold unmapped_step in Hstep.
      destruct (encode_unmapped _) as [w|e] eqn:He; simpl in Hstep; [|discriminate].
      inversion Hstep; subst a'.
      rewrite in_app_iff in Hk.
      destruct (String.eqb k x) eqn:Ekx.
      + apply String.eqb_eq in Ekx; subst k.
        exists w. split; [exact He|apply dict_get_set_same].
      + apply String.eqb_neq in Ekx.
        destruct Hk as [Hk|[Hk|[]]]; [|congruence].
        destruct (Ha k Hk) as [w' [H1 H2]]. exists w'. split; [exact H1|].
        rewrite dict_get_set_other; [exact H2|].
        intro Hx. apply append_inj_l in Hx. congruence.
    - unfold P. intros k []. }
  exact (HP f Hin).
Qed.

End Encoder.

Definition prefix_of (add_prefix : option string) : string :=
  match add_prefix with None => "" | Some p => p end.

Lemma result_keys_mapped row_dict p row_mapper result k0 :
  for_res (schema_step row_dict p) row_mapper [] = Ok result ->
  In k0 (if negb (String.eqb p "") then map (strip_prefix p) (dict_keys result)
         else dict_keys result) <-> mapped_present row_dict row_mapper k0.
Proof.
  intro Hs.
  assert (Hm : In k0 (map (strip_prefix p) (dict_keys result)) <->
               mapped_present row_dict row_mapper k0).
  { rewrite in_map_iff. split.
    - intros [k [Hk Hin]]. apply (schema_pass_keys _ _ _ _ Hs) in Hin.
      destruct Hin as [key [Hp ->]]. rewrite strip_prefix_app in Hk. congruence.
    - intro Hp. exists (p ++ k0). split; [apply strip_prefix_app|].
      apply (schema_pass_keys _ _ _ _ Hs). eauto. }
  destruct (String.eqb p "") eqn:Ep; simpl; [|exact Hm].
  apply String.eqb_eq in Ep. subst p. rewrite <- Hm.
  rewrite map_ext with (g := fun x => x) by apply strip_prefix_empty.
  now rewrite map_id.
Qed.

Lemma in_unmapped_keys row_dict rk k :
  In k (unmapped_keys row_dict rk) <-> In k (dict_keys row_dict) /\ ~ In k rk.
Proof.
  unfold unmapped_keys. rewrite filter_In, negb_true_iff.
  split.
  - intros [H1 H2]. split; [exact H1|]. intro H. 
    assert (existsb (String.eqb k) rk = true) by (apply existsb_exists; exists k;
      split; [exact H|apply String.eqb_refl]). congruence.
  - intros [H1 H2]. split; [exact H1|].
    destruct (existsb (String.eqb k) rk) eqn:E; [|reflexivity].
    apply existsb_exists in E. destruct E as [x [Hx Ex]].
    apply String.eqb_eq in Ex. subst. contradiction.
Qed.

Lemma mapped_present_dec row_dict row_mapper k :
  {mapped_present row_dict row_mapper k} + {~ mapped_present row_dict row_mapper k}.
Proof.
  unfold mapped_present.
  destruct (in_dec string_dec k (dict_keys row_mapper)) as [Hin|Hin];
    [|right; intros [H _]; contradiction].
  destruct (dict_get row_dict k) as [[]|] eqn:Hg;
    try (left; split; [exact Hin|]; eexists; split; [reflexivity|discriminate]);
    right; intros [_ [v [Hv Hn]]]; inversion Hv; congruence.
Qed.

(** Every native key yields exactly one prefixed output key. *)
Lemma dict_to_dynamo_keys row_dict row_mapper add_prefix out :
  dict_to_dynamo row_dict row_mapper add_prefix = Ok out ->
  forall k, In k (dict_keys out) <->
            exists k0, In k0 (dict_keys row_dict) /\ k = prefix_of add_prefix ++ k0.
Proof.
  unfold dict_to_dynamo. fold (prefix_of add_prefix).
  set (p := prefix_of add_prefix).
  destruct (for_res (schema_step row_dict p) row_mapper []) as [r1|e] eqn:Hs;
    simpl; [|discriminate].
  intros Hu k. rewrite (unmapped_pass_keys _ _ _ _ _ Hu k).
  rewrite (schema_pass_keys _ _ _ _ Hs k).
  split.
  - intros [[key [[Hin [v [Hg _]]] ->]]|[k0 [Hin ->]]].
    + exists key. split; [eapply dict_get_in_keys; eauto|reflexivity].
    + apply in_unmapped_keys in Hin. exists k0. split; [apply Hin|reflexivity].
  - intros [k0 [Hin ->]].
    destruct (mapped_present_dec row_dict row_mapper k0) as [Hm|Hm].
    + left. exists k0. auto.
    + right. exists k0. split; [|reflexivity]. apply in_unmapped_keys.
      split; [exact Hin|]. rewrite (result_keys_mapped _ _ _ _ _ Hs). exact Hm.
Qed.

(** A native key the schema pass did not write gets the unmapped pass's
    encoding of its value. *)
Lemma dict_to_dynamo_unmapped row_dict row_mapper add_prefix out f :
  dict_to_dynamo row_dict row_mapper add_prefix = Ok out ->
  In f (dict_keys row_dict) -> ~ mapped_present row_dict row_mapper f ->
  exists w, encode_unmapped (native_val row_dict f) = Ok w /\
            dict_get out (prefix_of add_prefix ++ f) = Some w.
Proof.
  unfold dict_to_dynamo. fold (prefix_of add_prefix).
  set (p := prefix_of add_prefix).
  destruct (for_res (schema_step row_dict p) row_mapper []) as [r1|e] eqn:Hs;
    simpl; [|discriminate].
  intros Hu Hin Hm. eapply unmapped_pass_get; [exact Hu|].
  apply in_unmapped_keys. split; [exact Hin|].
  rewrite (result_keys_mapped _ _ _ _ _ Hs). exact Hm.
Qed.

(** ** Encoder claims *)

(** C3 (corrected): an undeclared native field whose value is [None] is
    not dropped.  The pass over the keys the schema pass did not write
    encodes it with boto3's serializer, which gives [{NULL: True}], under
    the prefixed key. *)
Theorem C3_none_field_encoded_as_null (row_dict : dict pyval) (row_mapper : dict string)
        (add_prefix : option string) (out : dict pyval) (f : string) :
  dict_to_dynamo row_dict row_mapper add_prefix = Ok out ->
  dict_get row_mapper f = None ->
  dict_get row_dict f = Some PNone ->
  dict_get out (prefix_of add_prefix ++ f) = Some (PDict [("NULL", PBool true)]).
Proof.
  intros Hrun _ Hf.
  destruct (dict_to_dynamo_unmapped _ _ _ _ f Hrun) as [w [Hw Hg]].
  - eapply dict_get_in_keys; eauto.
  - intros [_ [v [Hv Hn]]]. congruence.
  - unfold native_val in Hw. rewrite Hf in Hw. simpl in Hw.
    inversion Hw; subst. exact Hg.
Qed.

Lemma C3_none_field_encoded_as_null_witness :
  dict_to_dynamo [("f", PNone); ("g", PInt 1)] [("g", "N")] None
    = Ok [("g", PDict [("N", PStr "1")]); ("f", PDict [("NULL", PBool true)])] /\
  dict_get [("f", PNone); ("g", PInt 1)] "f" = Some PNone /\
  dict_get [("g", PDict [("N", PStr "1")]); ("f", PDict [("NULL", PBool true)])]
           (prefix_of None ++ "f") = Some (PDict [("NULL", PBool true)]).
Proof.
  split; [reflexivity|]. split; [reflexivity|].
  apply (C3_none_field_encoded_as_null [("f", PNone); ("g", PInt 1)] [("g", "N")]);
    reflexivity.
Defined.

(** C3 counterexample: [encode({f: None, g: 1}, S)] contains [f] when [S]
    declares [g] but not [f]. *)
Lemma C3_counterexample :
  dict_get (match dict_to_dynamo [("f", PNone); ("g", PInt 1)] [("g", "N")] None with
            | Ok out => out | Err _ => [] end) "f" = Some (PDict [("NULL", PBool true)]).
Proof. reflexivity. Qed.

(** C6: an undeclared native field holding a string for which
    [str.isnumeric] holds is encoded with tag [N] and the string itself as
    payload; [encode({f: "123"}, S)] is [{f: {N: "123"}}] when [S] does not
    declare [f]. *)
Theorem C6_numeric_string_promotion :
  (forall (row_dict : dict pyval) (row_mapper : dict string) (add_prefix : option string)
          (out : dict pyval) (f s : string),
     dict_get row_mapper f = None ->
     dict_get row_dict f = Some (PStr s) ->
     py_isnumeric s = true ->
     dict_to_dynamo row_dict row_mapper add_prefix = Ok out ->
     dict_get out (prefix_of add_prefix ++ f) = Some (PDict [("N", PStr s)])) /\
  (forall (row_mapper : dict string) (f : string),
     dict_get row_mapper f = None ->
     dict_to_dynamo [(f, PStr "123")] row_mapper None = Ok [(f, PDict [("N", PStr "123")])]).
Proof.
  split.
  - intros row_dict row_mapper add_prefix out f s Hrm Hf Hnum Hrun.
    destruct (dict_to_dynamo_unmapped _ _ _ _ f Hrun) as [w [Hw Hg]].
    + eapply dict_get_in_keys; eauto.
    + intros [Hin _]. apply (dict_get_not_in_keys _ _ Hrm). exact Hin.
    + unfold native_val in Hw. rewrite Hf in Hw. simpl in Hw. rewrite Hnum in Hw.
      inversion Hw; subst. exact Hg.
  - intros row_mapper f Hrm.
    unfold dict_to_dynamo. simpl.
    assert (Hs : forall acc, for_res (schema_step [(f, PStr "123")] "") row_mapper acc = Ok acc).
    { induction row_mapper as [|[key kt] rm IH]; intro acc; [reflexivity|].
      simpl in Hrm. simpl.
      destruct (String.eqb f key) eqn:E; [discriminate|].
      rewrite String.eqb_sym, E. simpl. exact (IH Hrm acc). }
    rewrite Hs. simpl. unfold unmapped_step. simpl.
    rewrite String.eqb_refl. reflexivity.
Qed.

Lemma C6_numeric_string_promotion_witness :
  dict_to_dynamo [("f", PStr "123")] [("g", "S")] None = Ok [("f", PDict [("N", PStr "123")])] /\
  dict_get [("f", PDict [("N", PStr "123")])] (prefix_of (Some "p_") ++ "f") = None /\
  dict_get [("p_g", PDict [("S", PStr "x")]); ("p_f", PDict [("N", PStr "42")])]
           (prefix_of (Some "p_") ++ "f") = Some (PDict [("N", PStr "42")]).
Proof.
  split; [apply (proj2 C6_numeric_string_promotion); reflexivity|].
  split; [reflexivity|].
  apply (proj1 C6_numeric_string_promotion
           [("f", PStr "42"); ("g", PStr "x")] [("g", "S")] (Some "p_")
           [("p_g", PDict [("S", PStr "x")]); ("p_f", PDict [("N", PStr "42")])] "f" "42");
    reflexivity.
Defined.

(** C7: with prefix [p], every key of the encoder's output is [p]
    followed by a native key, and every native key appears exactly so: the
    unmapped pass compares native keys with the schema pass's keys after
    stripping [p], so no field is encoded twice or missed.
    [encode({f: 1}, S, prefix="old_")] is [{"old_f": {N: "1"}}] when [S]
    declares [f] as [N]. *)
Theorem C7_key_prefixing :
  (forall (row_dict : dict pyval) (row_mapper : dict string) (add_prefix : option string)
          (out : dict pyval),
     dict_to_dynamo row_dict row_mapper add_prefix = Ok out ->
     (forall k, In k (dict_keys out) -> String.prefix (prefix_of add_prefix) k = true) /\
     (forall k, In k (dict_keys out) <->
                exists k0, In k0 (dict_keys row_dict) /\ k = prefix_of add_prefix ++ k0)) /\
  (forall (row_mapper : dict string) (f : string),
     NoDup (dict_keys row_mapper) -> dict_get row_mapper f = Some "N" ->
     dict_to_dynamo [(f, PInt 1)] row_mapper (Some "old_")
       = Ok [("old_" ++ f, PDict [("N", PStr "1")])]).
Proof.
  split.
  - intros row_dict row_mapper add_prefix out Hrun.
    split; [|exact (dict_to_dynamo_keys _ _ _ _ Hrun)].
    intros k Hk. apply (dict_to_dynamo_keys _ _ _ _ Hrun) in Hk.
    destruct Hk as [k0 [_ ->]]. apply prefix_app.
  - intros row_mapper f Hnd Hf.
    assert (Hs : forall acc,
      (dict_get row_mapper f = Some "N" ->
       for_res (schema_step [(f, PInt 1)] "old_") row_mapper acc
         = Ok (dict_set acc ("old_" ++ f) (PDict [("N", PStr "1")]))) /\
      (dict_get row_mapper f = None ->
       for_res (schema_step [(f, PInt 1)] "old_") row_mapper acc = Ok acc)).
    { clear Hf. induction row_mapper as [|[key kt] rm IH]; intro acc.
      - split; [discriminate|reflexivity].
      - simpl in Hnd. inversion Hnd as [|? ? Hnin Hnd']; subst.
        simpl. destruct (String.eqb f key) eqn:E.
        + apply String.eqb_eq in E; subst key. rewrite String.eqb_refl.
          split; [|discriminate]. intro Hkt; inversion Hkt; subst kt.
          simpl. apply (proj2 (IH Hnd' _)).
          destruct (dict_get rm f) eqn:Hg; [|reflexivity].
          exfalso. apply Hnin. eapply dict_get_in_keys; eauto.
        + rewrite String.eqb_sym, E. simpl. exact (IH Hnd' acc). }
    unfold dict_to_dynamo. simpl. rewrite (proj1 (Hs []) Hf). simpl.
    change (String "o" (String "l" (String "d" (String "_" f)))) with ("old_" ++ f).
    rewrite strip_prefix_app. unfold unmapped_keys. simpl.
    rewrite String.eqb_refl. reflexivity.
Qed.

Lemma C7_key_prefixing_witness :
  dict_to_dynamo [("f", PInt 1)] [("f", "N"); ("g", "S")] (Some "old_")
    = Ok [("old_f", PDict [("N", PStr "1")])] /\
  String.prefix "old_" "old_f" = true.
Proof.
  split.
  - apply (proj2 C7_key_prefixing [("f", "N"); ("g", "S")] "f").
    + repeat constructor; simpl; intuition discriminate.
    + reflexivity.
  - apply (proj1 (proj1 C7_key_prefixing [("f", PInt 1)] [("f", "N"); ("g", "S")]
                    (Some "old_") [("old_f", PDict [("N", PStr "1")])] eq_refl)).
    left. reflexivity.
Defined.

(** ** Round trip and JSON handling *)

(** C1 (code bug): a field declared [M] cannot be encoded, so
    [decode(encode({f: {g: 1}}, S), S)] raises: the schema pass calls
    [dict_to_dynamo(val)] without its required [row_mapper] argument.  A
    float whose [str] uses exponent notation does not survive the round
    trip under [N] either: [str(1e16)] is ["1e+16"], which has no ['.'] and
    is handed to [int]. *)
Theorem C1_nested_map_encode_raises :
  dict_to_dynamo [("f", PDict [("g", PInt 1)])] [("f", "M"); ("g", "N")] None
    = Err TypeError /\
  (let* w := dict_to_dynamo [("f", PDict [("g", PInt 1)])] [("f", "M"); ("g", "N")] None in
   dynamo_to_dict json_loads_model (PDict w) [("f", "M"); ("g", "N")] false false)
    = Err TypeError /\
  dict_to_dynamo [("f", PFloat (mkdecimal 1 16))] [("f", "N")] None
    = Ok [("f", PDict [("N", PStr "1e+16")])] /\
  dynamo_to_dict json_loads_model (PDict [("f", PDict [("N", PStr "1e+16")])])
                 [("f", "N")] false false = Err ValueError.
Proof. repeat split; vm_compute; reflexivity. Qed.

(** C4 (code bug): the suppress flag [dont_json_loads_results] is honoured
    for top-level fields but not passed on by the recursive call for an [M]
    field, so a JSON-looking string nested in a map is parsed even when
    parsing is suppressed. *)
Theorem C4_suppress_flag_lost_in_nested_map :
  dynamo_to_dict json_loads_model
    (PDict [("f", PDict [("S", PStr json_a1)])]) [("f", "S")] false true
    = Ok [("f", PStr json_a1)] /\
  dynamo_to_dict json_loads_model
    (PDict [("m", PDict [("M", PDict [("f", PDict [("S", PStr json_a1)])])])])
    [("m", "M")] false true
    = Ok [("m", PDict [("f", PDict [("a", PInt 1)])])] /\
  dynamo_to_dict json_loads_model
    (PDict [("m", PDict [("M", PDict [("f", PDict [("S", PStr json_a1)])])])])
    [("m", "M")] true true
    = Ok [("m", PDict [("f", PDict [("a", PInt 1)])])].
Proof. repeat split; vm_compute; reflexivity. Qed.

(** ** [to_bool] *)

(** C8: [to_bool] maps ["true"] and ["1"] to [True] and ["false"] and
    ["0"] to [False] after lower-casing, returns the truthiness of bools,
    ints and floats, and raises on every other string and every other
    value. *)
Theorem C8_to_bool_contract :
  (forall s, (py_lower s = "true" \/ py_lower s = "1") -> to_bool (PStr s) = Ok true) /\
  (forall s, (py_lower s = "false" \/ py_lower s = "0") -> to_bool (PStr s) = Ok false) /\
  (forall b, to_bool (PBool b) = Ok b) /\
  (forall z, to_bool (PInt z) = Ok (negb (Z.eqb z 0))) /\
  (forall d, to_bool (PFloat d) = Ok (negb (Z.eqb (dmant d) 0))) /\
  (forall s, py_lower s <> "true" -> py_lower s <> "1" -> py_lower s <> "false" ->
             py_lower s <> "0" -> exists e, to_bool (PStr s) = Err e) /\
  (forall v, (forall b, v <> PBool b) -> (forall z, v <> PInt z) -> (forall d, v <> PFloat d) ->
             (forall s, v <> PStr s) -> exists e, to_bool v = Err e).
Proof.
  repeat split.
  - intros s [H|H]; simpl; rewrite H; reflexivity.
  - intros s [H|H]; simpl; rewrite H; reflexivity.
  - intros s H1 H2 H3 H4. simpl.
    apply String.eqb_neq in H1, H2, H3, H4. rewrite H1, H2, H3, H4. simpl.
    eexists; reflexivity.
  - intros [] Hb Hz Hd Hs; simpl; try (eexists; reflexivity).
    + exfalso; eapply Hb; reflexivity.
    + exfalso; eapply Hz; reflexivity.
    + exfalso; eapply Hd; reflexivity.
    + exfalso; eapply Hs; reflexivity.
Qed.

Lemma C8_to_bool_contract_witness :
  to_bool (PStr "TRUE") = Ok true /\ to_bool (PStr "0") = Ok false /\
  (exists e, to_bool (PStr "yes") = Err e) /\ (exists e, to_bool PNone = Err e).
Proof.
  split; [apply (proj1 C8_to_bool_contract); left; reflexivity|].
  split; [apply (proj1 (proj2 C8_to_bool_contract)); right; reflexivity|].
  split.
  - apply (proj1 (proj2 (proj2 (proj2 (proj2 (proj2 C8_to_bool_contract))))));
      simpl; discriminate.
  - apply (proj2 (proj2 (proj2 (proj2 (proj2 (proj2 C8_to_bool_contract))))));
      intros; discriminate.
Defined.

(** ** The decoder's schema use *)

(** The fetch-all branch only passes [row_mapper] on to its recursive
    calls. *)
Lemma decode_all_row_mapper_irrelevant (json_loads : string -> option pyval) :
  forall (dynamo_row : pyval) (rm1 rm2 : dict string) (nojson : bool),
  decode_all json_loads dynamo_row rm1 nojson = decode_all json_loads dynamo_row rm2 nojson.
Proof.
  fix IH 1.
  intros [| | | | |entries| |] rm1 rm2 nojson; try reflexivity.
  simpl. generalize (@nil (string * pyval)) as result.
  induction entries as [|[key val_dict] es IHes]; intro result; [reflexivity|].
  destruct val_dict as [| | | | |tvs| |]; try reflexivity.
  remember (PDict tvs) as vd eqn:Hvd. clear Hvd.
  revert result.
  induction tvs as [|[val_type val] ts IHts]; intro result; [apply IHes|].
  simpl. rewrite (IH val rm1 rm2 false).
  destruct (String.eqb val_type "N");
    [destruct (decode_N val)
    |destruct (String.eqb val_type "M");
      [destruct (decode_all json_loads val rm2 false)
      |destruct (String.eqb val_type "S");
        [destruct (decode_S json_loads nojson val)|destruct (type_deserialize vd)]]];
    simpl; try reflexivity; apply IHts.
Qed.

Lemma for_res_ext {A B : Type} (f g : B -> A -> res B) :
  (forall acc x, f acc x = g acc x) -> forall l acc, for_res f l acc = for_res g l acc.
Proof.
  intros Hfg l. induction l as [|x l IH]; intro acc; simpl; [reflexivity|].
  rewrite Hfg. destruct (g acc x); simpl; auto.
Qed.

(** C9: in fetch-all mode the decoder's result does not depend on the
    schema; in default mode the schema passed down to the nested
    (fetch-all) calls is irrelevant too, so the schema is only read at the
    top level. *)
Theorem C9_fetch_all_ignores_schema :
  (forall (json_loads : string -> option pyval) (dynamo_row : pyval)
          (rm1 rm2 : dict string) (dont_json_loads_results : bool),
     dynamo_to_dict json_loads dynamo_row rm1 true dont_json_loads_results
     = dynamo_to_dict json_loads dynamo_row rm2 true dont_json_loads_results) /\
  (forall (json_loads : string -> option pyval) (dynamo_row : pyval)
          (row_mapper rm' : dict string) (dont_json_loads_results : bool),
     dynamo_to_dict json_loads dynamo_row row_mapper false dont_json_loads_results
     = for_res (decode_mapped_field json_loads dynamo_row rm' dont_json_loads_results)
               row_mapper []).
Proof.
  split.
  - intros. apply decode_all_row_mapper_irrelevant.
  - intros json_loads dynamo_row row_mapper rm' nojson.
    unfold dynamo_to_dict. simpl. apply for_res_ext.
    intros acc [key key_type]. unfold decode_mapped_field.
    destruct (py_get dynamo_row key) as [val_dict|e]; simpl; [|reflexivity].
    destruct (py_truthy val_dict); [|reflexivity].
    destruct (py_get val_dict key_type) as [val|e]; simpl; [|reflexivity].
    now rewrite (decode_all_row_mapper_irrelevant json_loads val row_mapper rm' false).
Qed.

(** ** Numeric decoding *)

(** A non-empty run of ASCII digits *)
Definition digits_only (cs : list ascii) : bool :=
  match cs with [] => false | _ => forallb is_digit cs end.

Definition digits_value (cs : list ascii) : Z :=
  fold_left (fun acc c => (acc * 10 + digit_val c)%Z) cs 0%Z.

(** An integer literal: optional ['-'] and decimal digits. *)
Definition is_int_string (s : string) : bool :=
  match list_ascii_of_string s with
  | c :: r => if Ascii.eqb c "-" then digits_only r else digits_only (c :: r)
  | [] => false
  end.

Definition int_string_value (s : string) : Z :=
  match list_ascii_of_string s with
  | c :: r => if Ascii.eqb c "-" then (- digits_value r)%Z else digits_value (c :: r)
  | [] => 0%Z
  end.

Fixpoint split_dot (cs : list ascii) : option (list ascii * list ascii) :=
  match cs with
  | [] => None
  | c :: r =>
      if Ascii.eqb c "." then Some ([], r)
      else match split_dot r with Some (a, b) => Some (c :: a, b) | None => None end
  end.

(** A fractional literal: optional ['-'], digits, ['.'], digits. *)
Definition is_frac_string (s : string) : bool :=
  let cs := list_ascii_of_string s in
  let cs' := match cs with c :: r => if Ascii.eqb c "-" then r else cs | [] => cs end in
  match split_dot cs' with
  | Some (a, b) => digits_only a && digits_only b
  | None => false
  end.

Lemma scan_digits_all cs rest acc cnt :
  forallb is_digit cs = true ->
  (rest = [] \/ exists c r, rest = c :: r /\ is_digit c = false /\ Ascii.eqb c "_" = false) ->
  scan_digits (cs ++ rest) acc cnt
  = (fold_left (fun acc c => (acc * 10 + digit_val c)%Z) cs acc, (cnt + List.length cs)%nat, rest).
Proof.
  revert acc cnt. induction cs as [|c cs IH]; intros acc cnt Hd Hr; simpl.
  - rewrite Nat.add_0_r. destruct Hr as [->|[c [r [-> [H1 H2]]]]]; [reflexivity|].
    simpl. now rewrite H1, H2.
  - simpl in Hd. apply andb_prop in Hd. destruct Hd as [Hc Hd]. rewrite Hc.
    rewrite IH by assumption. f_equal. f_equal. lia.
Qed.

Lemma strip_leading_space_id cs :
  forallb (fun c => negb (is_space c)) cs = true -> strip_leading_space cs = cs.
Proof.
  destruct cs as [|c cs]; simpl; [reflexivity|].
  intro H. apply andb_prop in H. destruct H as [H _].
  destruct (is_space c); [discriminate|reflexivity].
Qed.

Lemma py_strip_id s :
  forallb (fun c => negb (is_space c)) (list_ascii_of_string s) = true ->
  py_strip s = list_ascii_of_string s.
Proof.
  intro H. unfold py_strip. rewrite (strip_leading_space_id (list_ascii_of_string s) H).
  rewrite (strip_leading_space_id (rev (list_ascii_of_string s))); [apply rev_involutive|].
  rewrite forallb_forall in *. intros x Hx. apply H. now apply in_rev.
Qed.

Lemma digit_not_space c : is_digit c = true -> is_space c = false.
Proof.
  unfold is_digit, is_space. intro H. apply andb_prop in H.
  destruct H as [H1 H2]. apply Nat.leb_le in H1, H2.
  repeat rewrite ?orb_false_iff, ?andb_false_iff, ?Nat.leb_gt, ?Nat.eqb_neq.
  lia.
Qed.

Lemma digits_no_space cs : forallb is_digit cs = true ->
  forallb (fun c => negb (is_space c)) cs = true.
Proof.
  induction cs as [|c cs IH]; simpl; [reflexivity|].
  intro H. apply andb_prop in H. destruct H as [H1 H2].
  rewrite digit_not_space by exact H1. simpl. auto.
Qed.

Lemma py_int_int_string v :
  is_int_string v = true -> py_int v = Some (int_string_value v).
Proof.
  unfold is_int_string, int_string_value, py_int.
  destruct (list_ascii_of_string v) as [|c r] eqn:Hv; [discriminate|].
  assert (Hs : forall cs, list_ascii_of_string v = cs ->
               forallb (fun c => negb (is_space c)) cs = true ->
               py_strip v = cs)
    by (intros cs Hcs Hn; subst cs; now apply py_strip_id).
  destruct (Ascii.eqb c "-") eqn:Ec.
  - apply Ascii.eqb_eq in Ec. subst c. intro Hd.
    unfold digits_only in Hd. destruct r as [|d r']; [discriminate|].
    rewrite (Hs _ Hv)
      by exact (andb_true_intro (conj eq_refl (digits_no_space _ Hd))).
    simpl. simpl in Hd. apply andb_prop in Hd. destruct Hd as [Hd1 Hd2].
    rewrite Hd1.
    rewrite <- (app_nil_r r'), scan_digits_all by (auto; now left).
    rewrite app_nil_r. reflexivity.
  - intro Hd. unfold digits_only in Hd.
    rewrite (Hs _ Hv) by now apply digits_no_space.
    simpl. rewrite Ec.
    destruct (Ascii.eqb c "+") eqn:Ep.
    + apply Ascii.eqb_eq in Ep. subst c. discriminate.
    + simpl in Hd. apply andb_prop in Hd. destruct Hd as [Hd1 Hd2].
      unfold parse_digits. rewrite Hd1.
      rewrite <- (app_nil_r (c :: r)), scan_digits_all
        by (simpl; rewrite ?Hd1, ?Hd2; auto; now left).
      rewrite app_nil_r. unfold digits_value. now rewrite Z.mul_1_l.
Qed.

Lemma split_dot_spec cs a b : split_dot cs = Some (a, b) -> cs = (a ++ "."%char :: b)%list.
Proof.
  revert a. induction cs as [|c cs IH]; intros a H; simpl in H; [discriminate|].
  destruct (Ascii.eqb c ".") eqn:E.
  - apply Ascii.eqb_eq in E. inversion H; subst. reflexivity.
  - destruct (split_dot cs) as [[a' b']|]; [|discriminate].
    inversion H; subst. simpl. f_equal. now apply IH.
Qed.

Lemma parse_digits_run cs rest :
  digits_only cs = true ->
  (rest = [] \/ exists c r, rest = c :: r /\ is_digit c = false /\ Ascii.eqb c "_" = false) ->
  parse_digits (cs ++ rest) = Some (digits_value cs, List.length cs, rest).
Proof.
  intros Hd Hr. destruct cs as [|c cs]; [discriminate|].
  unfold digits_only in Hd.
  assert (Hc : is_digit c = true) by (simpl in Hd; now apply andb_prop in Hd).
  unfold parse_digits. rewrite <- app_comm_cons, Hc, app_comm_cons.
  now rewrite scan_digits_all.
Qed.

Lemma py_float_frac_string v :
  is_frac_string v = true -> exists d, py_float v = Some d.
Proof.
  unfold is_frac_string, py_float.
  set (cs := list_ascii_of_string v).
  set (cs' := match cs with c :: r => if Ascii.eqb c "-" then r else cs | [] => cs end).
  destruct (split_dot cs') as [[a b]|] eqn:Hsp; [|discriminate].
  intro H. apply andb_prop in H. destruct H as [Ha Hb].
  apply split_dot_spec in Hsp.
  assert (Hna : forallb is_digit a = true) by (destruct a; [discriminate|exact Ha]).
  assert (Hnb : forallb is_digit b = true) by (destruct b; [discriminate|exact Hb]).
  assert (Hnsp' : forallb (fun c => negb (is_space c)) cs' = true).
  { rewrite Hsp, forallb_app. simpl.
    now rewrite (digits_no_space _ Hna), (digits_no_space _ Hnb). }
  assert (Hfirst : exists c r, cs' = c :: r /\ is_digit c = true).
  { destruct a as [|c r]; [discriminate|]. exists c, (r ++ "."%char :: b)%list.
    split; [exact Hsp|]. simpl in Hna. now apply andb_prop in Hna. }
  assert (Hsign : exists sg, parse_sign (py_strip v) = (sg, cs')).
  { subst cs'. destruct cs as [|c r] eqn:Hcs.
    - exists 1%Z. rewrite py_strip_id; [|fold cs; rewrite Hcs; reflexivity].
      fold cs. rewrite Hcs. reflexivity.
    - destruct (Ascii.eqb c "-") eqn:Ec.
      + exists (-1)%Z. rewrite py_strip_id; fold cs; rewrite Hcs.
        * simpl. now rewrite Ec.
        * apply Ascii.eqb_eq in Ec. subst c. exact (andb_true_intro (conj eq_refl Hnsp')).
      + exists 1%Z. rewrite py_strip_id; fold cs; rewrite Hcs; [|exact Hnsp'].
        destruct Hfirst as [c' [r' [Hcr Hdc]]]. inversion Hcr; subst c' r'.
        simpl. rewrite Ec.
        destruct (Ascii.eqb c "+") eqn:Ep; [|reflexivity].
        apply Ascii.eqb_eq in Ep. subst c. discriminate. }
  destruct Hsign as [sg Hsign]. rewrite Hsign.
  rewrite Hsp, parse_digits_run
    by (first [assumption | right; exists "."%char, b; repeat split]).
  simpl.
  rewrite <- (app_nil_r b), parse_digits_run by (first [assumption | now left]).
  destruct a as [|ca a']; [discriminate|]. simpl.
  eexists. reflexivity.
Qed.

Lemma has_char_list c s : has_char c s = existsb (Ascii.eqb c) (list_ascii_of_string s).
Proof. induction s as [|c' s IH]; simpl; [reflexivity|now rewrite IH]. Qed.

Lemma digits_no_dot l : forallb is_digit l = true -> existsb (Ascii.eqb ".") l = false.
Proof.
  induction l as [|c l IH]; [reflexivity|].
  change (is_digit c && forallb is_digit l = true ->
          Ascii.eqb "." c || existsb (Ascii.eqb ".") l = false).
  intro H. apply andb_prop in H. destruct H as [H1 H2].
  destruct (Ascii.eqb "." c) eqn:E.
  - apply Ascii.eqb_eq in E. subst c. vm_compute in H1. discriminate.
  - exact (IH H2).
Qed.

Lemma int_string_no_dot v : is_int_string v = true -> has_char "." v = false.
Proof.
  unfold is_int_string. rewrite has_char_list.
  destruct (list_ascii_of_string v) as [|c r]; [discriminate|].
  destruct (Ascii.eqb c "-") eqn:E.
  - apply Ascii.eqb_eq in E. subst c. intro H. simpl.
    apply digits_no_dot. destruct r; [discriminate|exact H].
  - intro H. apply digits_no_dot. exact H.
Qed.

Lemma frac_string_dot v : is_frac_string v = true -> has_char "." v = true.
Proof.
  unfold is_frac_string. rewrite has_char_list.
  set (cs := list_ascii_of_string v).
  destruct (split_dot _) as [[a b]|] eqn:Hs; [|discriminate]. intros _.
  apply split_dot_spec in Hs.
  apply existsb_exists. exists "."%char. split; [|apply Ascii.eqb_refl].
  destruct cs as [|c r]; [subst; simpl in Hs; destruct a; discriminate|].
  destruct (Ascii.eqb c "-"); rewrite Hs; [right|]; apply in_or_app; right; now left.
Qed.

Lemma for_res_all_ok {A B : Type} (step : B -> A -> res B) l acc :
  (forall x, In x l -> step acc x = Ok acc) -> for_res step l acc = Ok acc.
Proof.
  induction l as [|x l IH]; intro H; simpl; [reflexivity|].
  rewrite H by now left. simpl. apply IH. intros y Hy. apply H. now right.
Qed.

(** A loop over a schema where only the step for [f] does anything. *)
Lemma for_res_only_one {B : Type} (step : B -> string * string -> res B)
      (row_mapper : dict string) f t acc :
  (forall acc kt, fst kt <> f -> step acc kt = Ok acc) ->
  NoDup (dict_keys row_mapper) -> dict_get row_mapper f = Some t ->
  for_res step row_mapper acc = step acc (f, t).
Proof.
  intros Hother. revert acc.
  induction row_mapper as [|[k t'] rm IH]; intros acc Hnd Hg; simpl in Hg; [discriminate|].
  simpl in Hnd. inversion Hnd as [|? ? Hnin Hnd']; subst.
  simpl. destruct (String.eqb f k) eqn:E.
  - apply String.eqb_eq in E. subst k. inversion Hg; subst t'.
    destruct (step acc (f, t)) as [acc'|e]; simpl; [|reflexivity].
    apply for_res_all_ok. intros [k t''] Hin. apply Hother. simpl.
    intro; subst k. apply Hnin. apply (in_map fst) in Hin. exact Hin.
  - apply String.eqb_neq in E.
    rewrite Hother by (simpl; congruence). simpl. now apply IH.
Qed.

(** C5: a field whose effective tag is [N] is decoded by
    [float(v) if '.' in v else int(v)]; an integer literal [v] gives
    [int(v)], a fractional literal gives a float.  Stated for a schema
    declaring [f] as [N] in default mode, and in fetch-all mode. *)
Theorem C5_numeric_decoding (json_loads : string -> option pyval) (row_mapper : dict string)
        (f v : string) (dont_json_loads_results : bool) :
  NoDup (dict_keys row_mapper) -> dict_get row_mapper f = Some "N" ->
  let dynamo_row := PDict [(f, PDict [("N", PStr v)])] in
  let expected :=
    if has_char "." v then
      match py_float v with Some d => Ok [(f, PFloat d)] | None => Err ValueError end
    else match py_int v with Some z => Ok [(f, PInt z)] | None => Err ValueError end in
  dynamo_to_dict json_loads dynamo_row row_mapper false dont_json_loads_results = expected /\
  dynamo_to_dict json_loads dynamo_row row_mapper true dont_json_loads_results = expected /\
  (is_int_string v = true ->
   dynamo_to_dict json_loads dynamo_row row_mapper false dont_json_loads_results
   = Ok [(f, PInt (int_string_value v))]) /\
  (is_frac_string v = true -> exists d,
   dynamo_to_dict json_loads dynamo_row row_mapper false dont_json_loads_results
   = Ok [(f, PFloat d)]).
Proof.
  intros Hnd Hf dynamo_row expected.
  assert (Hdef : dynamo_to_dict json_loads dynamo_row row_mapper false dont_json_loads_results
                 = expected).
  { assert (Hother : forall acc kt, fst kt <> f ->
            decode_mapped_field json_loads dynamo_row row_mapper dont_json_loads_results acc kt
            = Ok acc).
    { intros acc [k t] Hk. simpl in Hk. unfold decode_mapped_field, dynamo_row. simpl.
      destruct (String.eqb k f) eqn:E; [apply String.eqb_eq in E; contradiction|].
      reflexivity. }
    unfold dynamo_to_dict. cbn [negb].
    rewrite (@for_res_only_one (dict pyval) _ row_mapper f "N" [] Hother Hnd Hf).
    unfold decode_mapped_field, dynamo_row, expected. simpl.
    rewrite String.eqb_refl. simpl.
    destruct (has_char "." v); [destruct (py_float v)|destruct (py_int v)]; reflexivity. }
  split; [exact Hdef|]. split.
  - unfold dynamo_to_dict, dynamo_row, expected. simpl.
    destruct (has_char "." v); [destruct (py_float v)|destruct (py_int v)]; reflexivity.
  - split.
    + intro Hi. rewrite Hdef. unfold expected.
      now rewrite (int_string_no_dot v Hi), (py_int_int_string v Hi).
    + intro Hr. rewrite Hdef. unfold expected. rewrite (frac_string_dot v Hr).
      destruct (py_float_frac_string v Hr) as [d Hd]. rewrite Hd. now exists d.
Qed.

Lemma C5_numeric_decoding_witness :
  dynamo_to_dict json_loads_model (PDict [("f", PDict [("N", PStr "-42")])])
                 [("f", "N"); ("g", "S")] false false = Ok [("f", PInt (-42))] /\
  exists d, dynamo_to_dict json_loads_model (PDict [("f", PDict [("N", PStr "1.25")])])
                           [("f", "N"); ("g", "S")] false false = Ok [("f", PFloat d)].
Proof.
  assert (Hnd : NoDup (dict_keys [("f", "N"); ("g", "S")]))
    by (repeat constructor; simpl; intuition discriminate).
  split.
  - apply (C5_numeric_decoding json_loads_model [("f", "N"); ("g", "S")] "f" "-42" false Hnd
             eq_refl).
    reflexivity.
  - apply (C5_numeric_decoding json_loads_model [("f", "N"); ("g", "S")] "f" "1.25" false Hnd
             eq_refl).
    reflexivity.
Defined.

(** ** Which fields the decoder produces *)

Lemma dict_get_In {A : Type} (d : dict A) k v :
  dict_get d k = Some v -> In (k, v) d.
Proof.
  induction d as [|[k0 v0] d IH]; simpl; [discriminate|].
  destruct (String.eqb k k0) eqn:E.
  - apply String.eqb_eq in E. subst k0. intro H; inversion H; subst. now left.
  - intro H. right. exact (IH H).
Qed.

(** The wire record holds a non-empty (truthy) value for [k]. *)
Definition wire_present (kvs : list (string * pyval)) (k : string) : Prop :=
  exists vd, dict_get kvs k = Some vd /\ py_truthy vd = true.

Lemma decode_mapped_field_keys json_loads kvs row_mapper nojson acc key key_type acc' :
  decode_mapped_field json_loads (PDict kvs) row_mapper nojson acc (key, key_type) = Ok acc' ->
  forall k, In k (dict_keys acc') <->
            In k (dict_keys acc) \/ (k = key /\ wire_present kvs k).
Proof.
  unfold decode_mapped_field, wire_present. simpl.
  destruct (dict_get kvs key) as [vd|] eqn:Hg.
  - destruct (py_truthy vd) eqn:Ht.
    + destruct (py_get vd key_type) as [val|e]; simpl; [|discriminate].
      intros Hrun k.
      destruct (if String.eqb key_type "N" then decode_N val
                else if String.eqb key_type "M" then
                  let* d := decode_all json_loads val row_mapper false in Ok (PDict d)
                else if String.eqb key_type "S" then decode_S json_loads nojson val
                else type_deserialize vd) as [v|e]; simpl in Hrun; [|discriminate].
      inversion Hrun; subst acc'. rewrite dict_keys_set.
      split; [intros [H|H]; [now left|subst; right; eauto]|].
      intros [H|[H _]]; [now left|now right].
    + intros Hrun k. inversion Hrun; subst acc'.
      split; [now left|]. intros [H|[-> [vd' [Hg' Ht']]]]; [exact H|congruence].
  - intros Hrun k. simpl in Hrun. inversion Hrun; subst acc'.
    split; [now left|]. intros [H|[-> [vd' [Hg' Ht']]]]; [exact H|congruence].
Qed.

(** * [helpers.chunks] *)

(** [range(start, stop, step)]: a zero step raises [ValueError].  Every
    element moves at least one step towards [stop], so [|stop - start|]
    bounds the number of elements. *)
Fixpoint range_up (fuel : nat) (i stop step : Z) : list Z :=
  match fuel with
  | O => []
  | S fuel' => if (i <? stop)%Z then i :: range_up fuel' (i + step) stop step else []
  end.

Fixpoint range_down (fuel : nat) (i stop step : Z) : list Z :=
  match fuel with
  | O => []
  | S fuel' => if (stop <? i)%Z then i :: range_down fuel' (i + step) stop step else []
  end.

Definition py_range (start stop step : Z) : res (list Z) :=
  if (step =? 0)%Z then Err ValueError
  else if (0 <? step)%Z then Ok (range_up (Z.to_nat (stop - start)) start stop step)
  else Ok (range_down (Z.to_nat (start - stop)) start stop step).

(** A slice bound: a negative index counts from the end, then the index is
    clamped to [[0, len]]. *)
Definition slice_index (len i : Z) : Z :=
  if (i <? 0)%Z then Z.max 0 (len + i) else Z.min i len.

(** [l[i:j]] *)
Definition py_slice {A : Type} (l : list A) (i j : Z) : list A :=
  let len := Z.of_nat (List.length l) in
  let i' := slice_index len i in
  let j' := slice_index len j in
  firstn (Z.to_nat (j' - i')) (skipn (Z.to_nat i') l).

(** [chunks(l, n)]: the values the generator yields, or the exception
    raised when it is iterated ([range] is evaluated before the first
    [yield]). *)
Definition chunks {A : Type} (l : list A) (n : Z) : res (list (list A)) :=
  let* is := py_range 0 (Z.of_nat (List.length l)) n in
  Ok (map (fun i => py_slice l i (i + n)) is).

Lemma py_slice_chunk {A : Type} (l : list A) (i m : nat) :
  (i <= List.length l)%nat ->
  py_slice l (Z.of_nat i) (Z.of_nat i + Z.of_nat m) = firstn m (skipn i l).
Proof.
  intro Hi. unfold py_slice, slice_index.
  assert (H1 : (Z.of_nat i <? 0)%Z = false) by (apply Z.ltb_ge; lia).
  assert (H2 : (Z.of_nat i + Z.of_nat m <? 0)%Z = false) by (apply Z.ltb_ge; lia).
  rewrite H1, H2.
  rewrite (Z.min_l (Z.of_nat i)) by lia.
  assert (Hlen : List.length (skipn i l) = (List.length l - i)%nat) by apply length_skipn.
  destruct (Nat.le_gt_cases (i + m) (List.length l)) as [Hle|Hgt].
  - rewrite (Z.min_l (Z.of_nat i + Z.of_nat m)) by lia.
    replace (Z.to_nat (Z.of_nat i + Z.of_nat m - Z.of_nat i)) with m by lia.
    now rewrite Nat2Z.id.
  - rewrite (Z.min_r (Z.of_nat i + Z.of_nat m)) by lia. rewrite Nat2Z.id.
    replace (Z.to_nat (Z.of_nat (List.length l) - Z.of_nat i)) with (List.length (skipn i l))
      by lia.
    rewrite firstn_all.
    symmetry. apply firstn_all2. lia.
Qed.

(** The chunks read from position [i] on. *)
Lemma range_chunks {A : Type} (l : list A) (m : nat) (Hm : (0 < m)%nat) :
  forall fuel i, (List.length l - i <= fuel)%nat ->
  let cs := map (fun j => py_slice l j (j + Z.of_nat m))
                (range_up fuel (Z.of_nat i) (Z.of_nat (List.length l)) (Z.of_nat m)) in
  concat cs = skipn i l /\
  (forall c, In c cs -> (0 < List.length c <= m)%nat) /\
  (forall pre c post, cs = (pre ++ c :: post)%list -> post <> [] -> List.length c = m) /\
  List.length cs = ((List.length l - i + m - 1) / m)%nat.
Proof.
  induction fuel as [|fuel IH]; intros i Hf cs; subst cs; simpl.
  - rewrite skipn_all2 by lia.
    replace (List.length l - i + m - 1)%nat with (m - 1)%nat by lia.
    rewrite Nat.div_small by lia.
    split; [reflexivity|]. split; [intros c []|]. split; [|reflexivity].
    intros [|? ?] c post H; discriminate.
  - destruct (Z.of_nat i <? Z.of_nat (List.length l))%Z eqn:Hlt.
    + apply Z.ltb_lt in Hlt. apply Nat2Z.inj_lt in Hlt.
      rewrite <- Nat2Z.inj_add.
      destruct (IH (i + m)%nat ltac:(lia)) as [Hc [Hs [Hl Hn]]].
      cbn [map].
      set (cs' := map (fun j : Z => py_slice l j (j + Z.of_nat m))
                      (range_up fuel (Z.of_nat (i + m)) (Z.of_nat (List.length l))
                                (Z.of_nat m))) in *.
      rewrite py_slice_chunk by lia.
      assert (Hlen : List.length (firstn m (skipn i l)) = Nat.min m (List.length l - i))
        by (rewrite length_firstn, length_skipn; reflexivity).
      split; [|split; [|split]].
      * simpl. rewrite Hc. rewrite Nat.add_comm, <- skipn_skipn. apply firstn_skipn.
      * intros c [<-|Hin]; [rewrite Hlen; lia|exact (Hs c Hin)].
      * intros [|c0 pre] c post Heq Hpost.
        -- simpl in Heq. inversion Heq as [[Hc0 Hcs']]. subst c.
           rewrite Hlen.
           destruct (Nat.le_gt_cases (List.length l) (i + m)) as [Hle|Hgt]; [|lia].
           exfalso. apply Hpost. rewrite <- Hcs'.
           destruct cs' as [|x r] eqn:Ecs; [reflexivity|].
           exfalso. specialize (Hs x (or_introl eq_refl)).
           assert (Hsk : skipn (i + m) l = []) by (apply skipn_all2; lia).
           rewrite Hsk in Hc. simpl in Hc. apply app_eq_nil in Hc.
           destruct Hc as [Hc _]. rewrite Hc in Hs. simpl in Hs. lia.
        -- simpl in Heq. inversion Heq. eapply Hl; eauto.
      * simpl. rewrite Hn.
        destruct (Nat.le_gt_cases (i + m) (List.length l)) as [Hle|Hgt].
        -- replace (List.length l - i + m - 1)%nat
             with ((List.length l - (i + m) + m - 1) + 1 * m)%nat by lia.
           rewrite Nat.div_add by lia. lia.
        -- replace (List.length l - (i + m) + m - 1)%nat with (m - 1)%nat by lia.
           rewrite Nat.div_small by lia.
           apply (Nat.div_unique _ _ 1 (List.length l - i - 1)); lia.
    + apply Z.ltb_ge in Hlt. apply Nat2Z.inj_le in Hlt.
      rewrite skipn_all2 by lia.
      replace (List.length l - i + m - 1)%nat with (m - 1)%nat by lia.
      rewrite Nat.div_small by lia.
      split; [reflexivity|]. split; [intros c []|]. split; [|reflexivity].
      intros [|? ?] c post H; discriminate.
Qed.

Lemma chunks_pos {A : Type} (l : list A) (n : Z) :
  (0 < n)%Z ->
  chunks l n = Ok (map (fun j => py_slice l j (j + Z.of_nat (Z.to_nat n)))
                       (range_up (List.length l) (Z.of_nat 0) (Z.of_nat (List.length l))
                                 (Z.of_nat (Z.to_nat n)))).
Proof.
  intro Hn. unfold chunks, py_range.
  rewrite (proj2 (Z.eqb_neq n 0)) by lia. rewrite (proj2 (Z.ltb_lt 0 n)) by lia.
  simpl. rewrite Z.sub_0_r, Nat2Z.id, Z2Nat.id by lia. reflexivity.
Qed.

(** X1: for a positive [n], joining the chunks gives back [l]. *)
Theorem chunks_concat {A : Type} (l : list A) (n : Z) :
  (0 < n)%Z -> exists cs, chunks l n = Ok cs /\ concat cs = l.
Proof.
  intro Hn. rewrite (chunks_pos l n Hn). eexists. split; [reflexivity|].
  destruct (range_chunks l (Z.to_nat n) ltac:(lia) (List.length l) 0 ltac:(lia))
    as [Hc _].
  exact Hc.
Qed.

Lemma chunks_concat_witness :
  (0 < 2)%Z /\ exists cs, chunks [1; 2; 3; 4; 5]%nat 2 = Ok cs /\ concat cs = [1; 2; 3; 4; 5]%nat.
Proof. split; [lia|]. apply chunks_concat. lia. Defined.

(** X2: for a positive [n], every chunk has between 1 and [n] elements,
    every chunk but the last has exactly [n], and there are
    [ceil(len(l) / n)] of them. *)
Theorem chunks_sizes {A : Type} (l : list A) (n : Z) (cs : list (list A)) :
  (0 < n)%Z -> chunks l n = Ok cs ->
  (forall c, In c cs -> (0 < List.length c <= Z.to_nat n)%nat) /\
  (forall pre c post, cs = (pre ++ c :: post)%list -> post <> [] ->
                      List.length c = Z.to_nat n) /\
  List.length cs = ((List.length l + Z.to_nat n - 1) / Z.to_nat n)%nat.
Proof.
  intros Hn Hrun. rewrite (chunks_pos l n Hn) in Hrun. injection Hrun as Hcs. subst cs.
  destruct (range_chunks l (Z.to_nat n) ltac:(lia) (List.length l) 0 ltac:(lia))
    as [_ [Hs [Hl Hc]]].
  split; [exact Hs|]. split; [exact Hl|].
  rewrite Nat.sub_0_r in Hc. exact Hc.
Qed.

Lemma chunks_sizes_witness :
  (0 < 2)%Z /\ chunks [1; 2; 3; 4; 5]%nat 2 = Ok [[1; 2]; [3; 4]; [5]]%nat /\
  List.length [[1; 2]; [3; 4]; [5]]%nat = ((5 + Z.to_nat 2 - 1) / Z.to_nat 2)%nat.
Proof.
  split; [lia|]. split; [reflexivity|].
  exact (proj2 (proj2 (chunks_sizes [1; 2; 3; 4; 5]%nat 2 _ ltac:(lia) eq_refl))).
Defined.

(** X3: a chunk size of 0 raises [ValueError] as soon as the generator is
    iterated, even for an empty [l]; a negative size yields nothing. *)
Theorem chunks_nonpositive {A : Type} (l : list A) :
  chunks l 0 = Err ValueError /\
  (forall n, (n < 0)%Z -> chunks l n = Ok []).
Proof.
  split; [reflexivity|].
  intros n Hn. unfold chunks, py_range.
  rewrite (proj2 (Z.eqb_neq n 0)) by lia.
  rewrite (proj2 (Z.ltb_ge 0 n)) by lia.
  replace (Z.to_nat (0 - Z.of_nat (List.length l))) with 0%nat by lia.
  reflexivity.
Qed.

Lemma chunks_nonpositive_witness :
  chunks (@nil nat) 0 = Err ValueError /\ chunks [1; 2; 3]%nat (-1) = Ok [].
Proof.
  split; [exact (proj1 (chunks_nonpositive [])) |].
  apply (proj2 (chunks_nonpositive [1; 2; 3]%nat)). lia.
Defined.

(** * [table.DynamoTable] and [shared.get_row_mapper] *)

Record DynamoTable := mkDynamoTable {
  name : string;
  row_mapper : option (dict string)
}.

(** [DynamoTable(name, row_mapper=None)]: the new table and the module
    dict [registered_tables] after [registered_tables[self.name] = self]. *)
Definition DynamoTable_init (registered_tables : dict DynamoTable) (name : string)
           (row_mapper : option (dict string)) : DynamoTable * dict DynamoTable :=
  let self := mkDynamoTable name row_mapper in
  (self, dict_set registered_tables name self).

(** [get_row_mapper(table_name)]: raises [Exception] for a name not in
    [registered_tables], and returns [registered_tables[table_name]]. *)
Definition get_row_mapper (registered_tables : dict DynamoTable) (table_name : string)
  : res DynamoTable :=
  match dict_get registered_tables table_name with
  | None => Err PyException
  | Some t => Ok t
  end.

(** The registry after constructing tables [(name, row_mapper)] in order. *)
Fixpoint construct_tables (registered_tables : dict DynamoTable)
         (specs : list (string * option (dict string))) : dict DynamoTable :=
  match specs with
  | [] => registered_tables
  | (n, rm) :: specs' => construct_tables (snd (DynamoTable_init registered_tables n rm)) specs'
  end.

(** The [row_mapper] of the last construction named [n] in [specs]. *)
Fixpoint last_construction (n : string) (specs : list (string * option (dict string)))
  : option (option (dict string)) :=
  match specs with
  | [] => None
  | (n', rm) :: specs' =>
      match last_construction n specs' with
      | Some r => Some r
      | None => if String.eqb n n' then Some rm else None
      end
  end.

(** X4: after constructing a sequence of tables, [get_row_mapper(n)]
    returns the table object (not its row mapper) built by the last
    construction named [n]; a name no construction used is looked up in the
    registry as it was before, and raises when it is not there. *)
Theorem get_row_mapper_after_constructions
        (registered_tables : dict DynamoTable) (specs : list (string * option (dict string)))
        (n : string) :
  get_row_mapper (construct_tables registered_tables specs) n
  = match last_construction n specs with
    | Some rm => Ok (mkDynamoTable n rm)
    | None => get_row_mapper registered_tables n
    end.
Proof.
  revert registered_tables.
  induction specs as [|[n' rm] specs IH]; intro reg; [reflexivity|].
  simpl. rewrite IH.
  destruct (last_construction n specs) as [r|]; [reflexivity|].
  unfold get_row_mapper.
  destruct (String.eqb n n') eqn:E.
  - apply String.eqb_eq in E. subst n'. now rewrite dict_get_set_same.
  - apply String.eqb_neq in E. now rewrite dict_get_set_other.
Qed.

(** * More of [converters.dict_to_dynamo] *)

(** The keys of [d] with [p] put in front. *)
Definition prefix_keys (p : string) (d : dict pyval) : dict pyval :=
  map (fun kv => (p ++ fst kv, snd kv)) d.

Lemma eqb_app_l p a b : String.eqb (p ++ a) (p ++ b) = String.eqb a b.
Proof.
  destruct (String.eqb a b) eqn:E.
  - apply String.eqb_eq in E. subst. apply String.eqb_refl.
  - apply String.eqb_neq. intro H. apply append_inj_l in H.
    apply String.eqb_neq in E. contradiction.
Qed.

Lemma prefix_keys_set p d k v :
  dict_set (prefix_keys p d) (p ++ k) v = prefix_keys p (dict_set d k v).
Proof.
  induction d as [|[k0 v0] d IH]; simpl; [reflexivity|].
  rewrite eqb_app_l. destruct (String.eqb k k0); simpl; [reflexivity|].
  now rewrite IH.
Qed.

Lemma prefix_keys_empty d : prefix_keys "" d = d.
Proof. induction d as [|[k v] d IH]; simpl; [reflexivity|]. now rewrite IH. Qed.

Lemma dict_keys_prefix_keys p d :
  map (strip_prefix p) (dict_keys (prefix_keys p d)) = dict_keys d.
Proof.
  induction d as [|[k v] d IH]; simpl; [reflexivity|].
  now rewrite strip_prefix_app, IH.
Qed.

(** The schema pass on a declared field holding a value other than [None]. *)
Lemma schema_step_present row_dict p acc key key_type v :
  dict_get row_dict key = Some v -> v <> PNone ->
  schema_step row_dict p acc (key, key_type)
  = let* w := encode_mapped key_type v in Ok (dict_set acc (p ++ key) w).
Proof.
  intros Hg Hv. simpl. rewrite Hg. destruct v; [contradiction| | | | | | |]; reflexivity.
Qed.

Lemma schema_pass_prefix row_dict p row_mapper :
  forall acc,
  for_res (schema_step row_dict p) row_mapper (prefix_keys p acc)
  = match for_res (schema_step row_dict "") row_mapper acc with
    | Ok r => Ok (prefix_keys p r)
    | Err e => Err e
    end.
Proof.
  induction row_mapper as [|[key key_type] rm IH]; intro acc; [reflexivity|].
  simpl. destruct (dict_get row_dict key) as [v|]; [|apply IH].
  destruct v;
    try apply IH;
    (destruct (encode_mapped key_type _) as [w|e]; simpl; [|reflexivity];
     rewrite prefix_keys_set; apply IH).
Qed.

Lemma unmapped_pass_prefix row_dict p keys :
  forall acc,
  for_res (unmapped_step row_dict p) keys (prefix_keys p acc)
  = match for_res (unmapped_step row_dict "") keys acc with
    | Ok r => Ok (prefix_keys p r)
    | Err e => Err e
    end.
Proof.
  induction keys as [|key ks IH]; intro acc; [reflexivity|].
  simpl. unfold unmapped_step.
  destruct (encode_unmapped _) as [w|e]; simpl; [|reflexivity].
  rewrite prefix_keys_set. apply IH.
Qed.

(** X5: encoding with a prefix [p] gives the encoding without prefix with
    [p] put in front of every key, or raises the same exception. *)
Theorem dict_to_dynamo_prefix_renames (row_dict : dict pyval) (row_mapper : dict string)
        (p : string) :
  dict_to_dynamo row_dict row_mapper (Some p)
  = match dict_to_dynamo row_dict row_mapper None with
    | Ok out => Ok (prefix_keys p out)
    | Err e => Err e
    end.
Proof.
  unfold dict_to_dynamo.
  assert (Hs : for_res (schema_step row_dict p) row_mapper []
               = match for_res (schema_step row_dict "") row_mapper [] with
                 | Ok r => Ok (prefix_keys p r) | Err e => Err e end)
    by exact (schema_pass_prefix row_dict p row_mapper []).
  rewrite Hs.
  destruct (for_res (schema_step row_dict "") row_mapper []) as [r|e]; simpl; [|reflexivity].
  assert (Hk : (if negb (String.eqb p "") then map (strip_prefix p) (dict_keys (prefix_keys p r))
                else dict_keys (prefix_keys p r)) = dict_keys r).
  { destruct (String.eqb p "") eqn:Ep; simpl.
    - apply String.eqb_eq in Ep. subst p. now rewrite prefix_keys_empty.
    - apply dict_keys_prefix_keys. }
  rewrite Hk. apply unmapped_pass_prefix.
Qed.

Lemma dict_get_app {A : Type} (l1 l2 : dict A) k :
  dict_get (l1 ++ l2)%list k = match dict_get l1 k with Some v => Some v | None => dict_get l2 k end.
Proof.
  induction l1 as [|[k0 v0] l1 IH]; simpl; [reflexivity|].
  destruct (String.eqb k k0); [reflexivity|exact IH].
Qed.

Lemma NoDup_keys_snoc {A : Type} (done : dict A) key v :
  NoDup (dict_keys (done ++ [(key, v)])%list) ->
  NoDup (dict_keys done) /\ ~ In key (dict_keys done).
Proof.
  unfold dict_keys. rewrite map_app. simpl. intro H.
  apply NoDup_remove in H. rewrite app_nil_r in H. exact H.
Qed.

(** The schema pass writes each declared field holding a value other than
    [None] with its declared encoding. *)
Lemma schema_pass_get row_dict p row_mapper result :
  for_res (schema_step row_dict p) row_mapper [] = Ok result ->
  NoDup (dict_keys row_mapper) ->
  forall k t v, dict_get row_mapper k = Some t -> dict_get row_dict k = Some v -> v <> PNone ->
  exists w, encode_mapped t v = Ok w /\ dict_get result (p ++ k) = Some w.
Proof.
  intro Hrun.
  pose (P := fun (done : dict string) (acc : dict pyval) =>
    NoDup (dict_keys done) ->
    forall k t v, dict_get done k = Some t -> dict_get row_dict k = Some v -> v <> PNone ->
    exists w, encode_mapped t v = Ok w /\ dict_get acc (p ++ k) = Some w).
  assert (HP : P ([] ++ row_mapper)%list result).
  { eapply for_res_inv; [| |exact Hrun].
    - intros done [key key_type] acc acc' Hacc Hstep. unfold P in *.
      intros Hnd k t v Hk Hv Hn.
      destruct (NoDup_keys_snoc _ _ _ Hnd) as [Hnd' Hnin].
      rewrite dict_get_app in Hk.
      destruct (dict_get done k) as [t'|] eqn:Hd.
      + inversion Hk; subst t'.
        destruct (Hacc Hnd' k t v Hd Hv Hn) as [w [Hw Hg]].
        exists w. split; [exact Hw|].
        assert (Hne : k <> key)
          by (intro; subst; apply Hnin; eapply dict_get_in_keys; eauto).
        destruct (schema_step_cases _ _ _ _ _ _ Hstep) as [[-> _]|[w' [-> _]]];
          [exact Hg|].
        rewrite dict_get_set_other; [exact Hg|].
        intro Hx. apply append_inj_l in Hx. congruence.
      + simpl in Hk. destruct (String.eqb k key) eqn:E; [|discriminate].
        apply String.eqb_eq in E. subst key. inversion Hk; subst key_type.
        rewrite (schema_step_present _ _ _ _ _ _ Hv Hn) in Hstep.
        destruct (encode_mapped t v) as [w|e]; simpl in Hstep; [|discriminate].
        inversion Hstep; subst acc'.
        exists w. split; [reflexivity|apply dict_get_set_same].
    - unfold P. intros _ k t v H. discriminate. }
  exact HP.
Qed.

(** The unmapped pass leaves the keys it does not visit alone. *)
Lemma unmapped_pass_other row_dict p keys :
  forall acc result k0,
  for_res (unmapped_step row_dict p) keys acc = Ok result -> ~ In k0 keys ->
  dict_get result (p ++ k0) = dict_get acc (p ++ k0).
Proof.
  induction keys as [|key ks IH]; intros acc result k0 Hrun Hnin; simpl in Hrun.
  - now inversion Hrun.
  - unfold unmapped_step in Hrun.
    destruct (encode_unmapped _) as [w|e]; simpl in Hrun; [|discriminate].
    rewrite (IH _ _ k0 Hrun) by (intro; apply Hnin; now right).
    apply dict_get_set_other. intro Hx. apply append_inj_l in Hx.
    apply Hnin. left. congruence.
Qed.

Lemma declared_field_encoded (row_dict : dict pyval) (row_mapper : dict string)
        (add_prefix : option string) (out : dict pyval) (k t : string) (v : pyval) :
  NoDup (dict_keys row_mapper) ->
  dict_get row_mapper k = Some t -> dict_get row_dict k = Some v -> v <> PNone ->
  dict_to_dynamo row_dict row_mapper add_prefix = Ok out ->
  exists w, encode_mapped t v = Ok w /\ dict_get out (prefix_of add_prefix ++ k) = Some w.
Proof.
  intros Hnd Hk Hv Hn. unfold dict_to_dynamo. fold (prefix_of add_prefix).
  set (p := prefix_of add_prefix).
  destruct (for_res (schema_step row_dict p) row_mapper []) as [r1|e] eqn:Hs;
    simpl; [|discriminate].
  intro Hu.
  destruct (schema_pass_get _ _ _ _ Hs Hnd k t v Hk Hv Hn) as [w [Hw Hg]].
  exists w. split; [exact Hw|].
  rewrite (unmapped_pass_other _ _ _ _ _ _ Hu); [exact Hg|].
  rewrite in_unmapped_keys, (result_keys_mapped _ _ _ _ _ Hs).
  intros [_ Hm]. apply Hm. split; [eapply dict_get_in_keys; eauto|].
  exists v. auto.
Qed.

(** X6: a field the schema declares with tag [t] and whose native value
    [v] is not [None] is written by the schema pass with [t]'s encoding of
    [v] ([BOOL]: [to_bool(v)], [N] and [S]: [str(v)], other tags: the
    serializer); the unmapped pass never overwrites it. *)
Theorem dict_to_dynamo_declared_field (row_dict : dict pyval) (row_mapper : dict string)
        (add_prefix : option string) (out : dict pyval) (k t : string) (v : pyval) :
  NoDup (dict_keys row_mapper) ->
  dict_get row_mapper k = Some t -> dict_get row_dict k = Some v -> v <> PNone ->
  dict_to_dynamo row_dict row_mapper add_prefix = Ok out ->
  exists w, encode_mapped t v = Ok w /\ dict_get out (prefix_of add_prefix ++ k) = Some w.
Proof. exact (declared_field_encoded row_dict row_mapper add_prefix out k t v). Qed.

Lemma dict_to_dynamo_declared_field_witness :
  exists w, encode_mapped "BOOL" (PStr "True") = Ok w /\
            dict_get [("p_f", PDict [("BOOL", PBool true)]); ("p_g", PDict [("N", PStr "2")])]
                     (prefix_of (Some "p_") ++ "f") = Some w.
Proof.
  apply (dict_to_dynamo_declared_field [("f", PStr "True"); ("g", PInt 2)] [("f", "BOOL")]
           (Some "p_") [("p_f", PDict [("BOOL", PBool true)]); ("p_g", PDict [("N", PStr "2")])]
           "f" "BOOL" (PStr "True")).
  - repeat constructor; simpl; intuition discriminate.
  - reflexivity.
  - reflexivity.
  - discriminate.
  - reflexivity.
Defined.

(** X7: if the encoding of a declared field holding a value other than
    [None] raises (e.g. [to_bool] on an unrecognised string under [BOOL],
    or the one-argument recursive call under [M]), the whole encoding
    raises. *)
Theorem dict_to_dynamo_declared_field_raises (row_dict : dict pyval)
        (row_mapper : dict string) (add_prefix : option string) (k t : string) (v : pyval) :
  dict_get row_mapper k = Some t -> dict_get row_dict k = Some v -> v <> PNone ->
  (exists e, encode_mapped t v = Err e) ->
  exists e, dict_to_dynamo row_dict row_mapper add_prefix = Err e.
Proof.
  intros Hk Hv Hn [e He]. unfold dict_to_dynamo.
  destruct (for_res_err (schema_step row_dict (prefix_of add_prefix)) row_mapper (k, t) []
              (dict_get_In _ _ _ Hk))
    as [e' He'].
  - intro acc. rewrite (schema_step_present _ _ _ _ _ _ Hv Hn), He. now exists e.
  - fold (prefix_of add_prefix). rewrite He'. now exists e'.
Qed.

Lemma dict_to_dynamo_declared_field_raises_witness :
  exists e, dict_to_dynamo [("f", PStr "yes")] [("f", "BOOL")] None = Err e.
Proof.
  apply (dict_to_dynamo_declared_field_raises [("f", PStr "yes")] [("f", "BOOL")] None
           "f" "BOOL" (PStr "yes")); [reflexivity|reflexivity|discriminate|].
  exists PyException. reflexivity.
Defined.

(** X8: a field the schema does not declare is encoded from its runtime
    type: a [bool] as [BOOL] (tested before [int]), an [int] or a [float]
    as [N] with [str(v)] (a float never reaches the serializer, which would
    reject it), and a non-numeric [str] as [S]. *)
Theorem dict_to_dynamo_undeclared_scalars (row_dict : dict pyval) (row_mapper : dict string)
        (add_prefix : option string) (out : dict pyval) (f : string) (v : pyval) :
  dict_get row_mapper f = None -> dict_get row_dict f = Some v ->
  dict_to_dynamo row_dict row_mapper add_prefix = Ok out ->
  (forall b, v = PBool b ->
     dict_get out (prefix_of add_prefix ++ f) = Some (PDict [("BOOL", PBool b)])) /\
  (forall z, v = PInt z ->
     dict_get out (prefix_of add_prefix ++ f) = Some (PDict [("N", PStr (Z_to_string z))])) /\
  (forall d, v = PFloat d ->
     dict_get out (prefix_of add_prefix ++ f) = Some (PDict [("N", PStr (float_repr d))])) /\
  (forall s, v = PStr s -> py_isnumeric s = false ->
     dict_get out (prefix_of add_prefix ++ f) = Some (PDict [("S", PStr s)])).
Proof.
  intros Hrm Hf Hrun.
  destruct (dict_to_dynamo_unmapped _ _ _ _ f Hrun) as [w [Hw Hg]].
  - eapply dict_get_in_keys; eauto.
  - intros [Hin _]. exact (dict_get_not_in_keys _ _ Hrm Hin).
  - unfold native_val in Hw. rewrite Hf in Hw.
    split; [|split; [|split]].
    + intros b ->. simpl in Hw. inversion Hw; subst. exact Hg.
    + intros z ->. simpl in Hw. inversion Hw; subst. exact Hg.
    + intros d ->. simpl in Hw. inversion Hw; subst. exact Hg.
    + intros s -> Hs. simpl in Hw. rewrite Hs in Hw. inversion Hw; subst. exact Hg.
Qed.

Lemma dict_to_dynamo_undeclared_scalars_witness :
  dict_get [("x", PDict [("N", PStr "1.5")])] (prefix_of None ++ "x")
  = Some (PDict [("N", PStr (float_repr (mkdecimal 15 (-1))))]).
Proof.
  apply (proj1 (proj2 (proj2 (dict_to_dynamo_undeclared_scalars
           [("x", PFloat (mkdecimal 15 (-1)))] [] None [("x", PDict [("N", PStr "1.5")])]
           "x" (PFloat (mkdecimal 15 (-1))) eq_refl eq_refl eq_refl)))).
  reflexivity.
Defined.

(** X9: a field the schema does not declare and whose value is a [dict]
    cannot be encoded: the nested call [dict_to_dynamo(val)] lacks its
    [row_mapper] argument, so the whole encoding raises. *)
Theorem dict_to_dynamo_undeclared_dict_raises (row_dict : dict pyval)
        (row_mapper : dict string) (add_prefix : option string) (f : string)
        (kvs : list (string * pyval)) :
  dict_get row_mapper f = None -> dict_get row_dict f = Some (PDict kvs) ->
  exists e, dict_to_dynamo row_dict row_mapper add_prefix = Err e.
Proof.
  intros Hrm Hf. unfold dict_to_dynamo. fold (prefix_of add_prefix).
  set (p := prefix_of add_prefix).
  destruct (for_res (schema_step row_dict p) row_mapper []) as [r1|e] eqn:Hs;
    simpl; [|now exists e].
  apply (for_res_err _ _ f).
  - rewrite in_unmapped_keys, (result_keys_mapped _ _ _ _ _ Hs). split.
    + eapply dict_get_in_keys; eauto.
    + intros [Hin _]. exact (dict_get_not_in_keys _ _ Hrm Hin).
  - intro acc. unfold unmapped_step. rewrite Hf. now exists TypeError.
Qed.

Lemma dict_to_dynamo_undeclared_dict_raises_witness :
  exists e, dict_to_dynamo [("g", PInt 1); ("f", PDict [("a", PInt 1)])] [("g", "N")] None
            = Err e.
Proof.
  apply (dict_to_dynamo_undeclared_dict_raises _ [("g", "N")] None "f" [("a", PInt 1)]);
    reflexivity.
Defined.

(** X10: an empty row encodes to an empty item, whatever the schema and
    prefix. *)
Theorem dict_to_dynamo_empty_row (row_mapper : dict string) (add_prefix : option string) :
  dict_to_dynamo [] row_mapper add_prefix = Ok [].
Proof.
  unfold dict_to_dynamo.
  rewrite for_res_all_ok by (intros [k t] _; reflexivity).
  reflexivity.
Qed.

(** * More of [converters.dynamo_to_dict] *)

(** A default-mode step only adds the value it decodes for its own key,
    computed without looking at the accumulated result. *)
Lemma decode_mapped_field_alone json_loads dynamo_row row_mapper nojson acc key key_type :
  decode_mapped_field json_loads dynamo_row row_mapper nojson acc (key, key_type)
  = let* d := decode_mapped_field json_loads dynamo_row row_mapper nojson [] (key, key_type) in
    Ok (match dict_get d key with Some v => dict_set acc key v | None => acc end).
Proof.
  unfold decode_mapped_field.
  destruct (py_get dynamo_row key) as [vd|e]; simpl; [|reflexivity].
  destruct (py_truthy vd); [|reflexivity].
  destruct (py_get vd key_type) as [val|e]; simpl; [|reflexivity].
  set (x := if String.eqb key_type "N" then _ else _).
  destruct x as [v|e]; simpl; [|reflexivity].
  now rewrite String.eqb_refl.
Qed.

(** What decoding the declared field [k] on its own gives for [k]. *)
Definition decoded_alone (json_loads : string -> option pyval) (dynamo_row : pyval)
           (row_mapper : dict string) (nojson : bool) (k t : string) : res (option pyval) :=
  let* d := decode_mapped_field json_loads dynamo_row row_mapper nojson [] (k, t) in
  Ok (dict_get d k).

Lemma decode_default_lookup (json_loads : string -> option pyval)
      (dynamo_row : pyval) (row_mapper : dict string) (nojson : bool) (out : dict pyval) :
  NoDup (dict_keys row_mapper) ->
  dynamo_to_dict json_loads dynamo_row row_mapper false nojson = Ok out ->
  forall k, match dict_get row_mapper k with
            | Some t => decoded_alone json_loads dynamo_row row_mapper nojson k t
                        = Ok (dict_get out k)
            | None => dict_get out k = None
            end.
Proof.
  intros Hnd Hrun. unfold dynamo_to_dict in Hrun. cbn [negb] in Hrun.
  set (step := decode_mapped_field json_loads dynamo_row row_mapper nojson) in *.
  pose (P := fun (done : dict string) (acc : dict pyval) =>
    NoDup (dict_keys done) ->
    forall k, match dict_get done k with
              | Some t => decoded_alone json_loads dynamo_row row_mapper nojson k t
                          = Ok (dict_get acc k)
              | None => dict_get acc k = None
              end).
  assert (HP : P ([] ++ row_mapper)%list out).
  { apply (for_res_inv step P row_mapper [] [] out); [| |exact Hrun].
    - intros done [key kt] acc acc' Hacc Hstep. unfold P in *. intros Hnd' k.
      destruct (NoDup_keys_snoc _ _ _ Hnd') as [Hnd'' Hnin].
      specialize (Hacc Hnd'').
      unfold step in Hstep. rewrite decode_mapped_field_alone in Hstep.
      unfold decoded_alone.
      destruct (decode_mapped_field json_loads dynamo_row row_mapper nojson [] (key, kt))
        as [d|e] eqn:Hd; simpl in Hstep; [|discriminate].
      injection Hstep as Hacc'.
      assert (Hother : forall k, k <> key -> dict_get acc' k = dict_get acc k).
      { intros k0 Hk0. rewrite <- Hacc'.
        destruct (dict_get d key); [now apply dict_get_set_other|reflexivity]. }
      rewrite dict_get_app. specialize (Hacc k).
      destruct (dict_get done k) as [t|] eqn:Hdk.
      + assert (Hne : k <> key)
          by (intro; subst; apply Hnin; eapply dict_get_in_keys; eauto).
        rewrite Hother by exact Hne. exact Hacc.
      + cbn [dict_get]. destruct (String.eqb k key) eqn:E.
        * apply String.eqb_eq in E. subst k. rewrite Hd. cbn [bind]. f_equal.
          rewrite <- Hacc'. destruct (dict_get d key) as [v|] eqn:Hv.
          -- now rewrite dict_get_set_same.
          -- now rewrite Hacc.
        * apply String.eqb_neq in E. rewrite Hother by exact E. exact Hacc.
    - unfold P. intros _ k. reflexivity. }
  exact (HP Hnd).
Qed.

Lemma decode_default_raises (json_loads : string -> option pyval)
      (dynamo_row : pyval) (row_mapper : dict string) (nojson : bool) k t e :
  dict_get row_mapper k = Some t ->
  decode_mapped_field json_loads dynamo_row row_mapper nojson [] (k, t) = Err e ->
  exists e', dynamo_to_dict json_loads dynamo_row row_mapper false nojson = Err e'.
Proof.
  intros Hk He. unfold dynamo_to_dict. cbn [negb].
  apply (for_res_err _ _ (k, t) []); [now apply dict_get_In|].
  intro acc. rewrite decode_mapped_field_alone, He. now exists e.
Qed.

(** X11: in default mode the declared fields are decoded independently:
    when decoding succeeds, the result holds for each declared field [k]
    exactly what decoding [k] alone gives, and nothing for undeclared
    fields; when decoding one declared field alone raises, the whole call
    raises. *)
Theorem dynamo_to_dict_fields_independent (json_loads : string -> option pyval)
        (dynamo_row : pyval) (row_mapper : dict string) (nojson : bool) :
  (forall out, NoDup (dict_keys row_mapper) ->
     dynamo_to_dict json_loads dynamo_row row_mapper false nojson = Ok out ->
     forall k, match dict_get row_mapper k with
               | Some t => decoded_alone json_loads dynamo_row row_mapper nojson k t
                           = Ok (dict_get out k)
               | None => dict_get out k = None
               end) /\
  (forall k t e, dict_get row_mapper k = Some t ->
     decode_mapped_field json_loads dynamo_row row_mapper nojson [] (k, t) = Err e ->
     exists e', dynamo_to_dict json_loads dynamo_row row_mapper false nojson = Err e').
Proof.
  split.
  - intros out. apply decode_default_lookup.
  - intros k t e. apply decode_default_raises.
Qed.

Lemma dynamo_to_dict_fields_independent_witness :
  decoded_alone json_loads_model
    (PDict [("f", PDict [("N", PStr "7")]); ("g", PDict [("S", PStr "x")])])
    [("f", "N"); ("g", "S")] false "f" "N"
  = Ok (dict_get [("f", PInt 7); ("g", PStr "x")] "f") /\
  exists e', dynamo_to_dict json_loads_model
               (PDict [("f", PDict [("N", PStr "7")]); ("g", PDict [("S", PInt 1)])])
               [("f", "N"); ("g", "S")] false false = Err e'.
Proof.
  split.
  - exact (proj1 (dynamo_to_dict_fields_independent json_loads_model
             (PDict [("f", PDict [("N", PStr "7")]); ("g", PDict [("S", PStr "x")])])
             [("f", "N"); ("g", "S")] false) [("f", PInt 7); ("g", PStr "x")]
             ltac:(repeat constructor; simpl; intuition discriminate) eq_refl "f").
  - apply (proj2 (dynamo_to_dict_fields_independent json_loads_model
             (PDict [("f", PDict [("N", PStr "7")]); ("g", PDict [("S", PInt 1)])])
             [("f", "N"); ("g", "S")] false) "g" "S" AttributeError); reflexivity.
Defined.

(** X12: for a field declared [S] holding a string [s], when [json.loads]
    either returns or raises [ValueError] on [s] (the two outcomes of the
    parameter [json_loads]), the decoder does not raise: a string that
    starts with ['{'] and ends with ['}'] is replaced by [json.loads] of it
    when parsing is not suppressed and succeeds, and every other string,
    including one [json.loads] rejects with [ValueError], is returned as it
    is.  Other exceptions of [json.loads] are not caught by the code and
    are outside this statement. *)
Theorem dynamo_to_dict_string_field (json_loads : string -> option pyval)
        (row_mapper : dict string) (f s : string) (nojson : bool) :
  NoDup (dict_keys row_mapper) -> dict_get row_mapper f = Some "S" ->
  dynamo_to_dict json_loads (PDict [(f, PDict [("S", PStr s)])]) row_mapper false nojson
  = Ok [(f, if py_startswith "{" s && py_endswith "}" s && negb nojson then
              match json_loads s with Some v => v | None => PStr s end
            else PStr s)].
Proof.
  intros Hnd Hf.
  assert (Hother : forall acc kt, fst kt <> f ->
            decode_mapped_field json_loads (PDict [(f, PDict [("S", PStr s)])]) row_mapper
                                nojson acc kt = Ok acc).
  { intros acc [k t] Hk. simpl in Hk. unfold decode_mapped_field. simpl.
    destruct (String.eqb k f) eqn:E; [apply String.eqb_eq in E; contradiction|].
    reflexivity. }
  unfold dynamo_to_dict. cbn [negb].
  rewrite (@for_res_only_one (dict pyval) _ row_mapper f "S" [] Hother Hnd Hf).
  unfold decode_mapped_field. simpl. rewrite String.eqb_refl. simpl.
  destruct (py_startswith "{" s && py_endswith "}" s && negb nojson); [|reflexivity].
  destruct (json_loads s); reflexivity.
Qed.

Lemma dynamo_to_dict_string_field_witness :
  dynamo_to_dict json_loads_model (PDict [("f", PDict [("S", PStr "{bad}")])])
                 [("f", "S")] false false = Ok [("f", PStr "{bad}")].
Proof.
  rewrite (dynamo_to_dict_string_field json_loads_model [("f", "S")] "f" "{bad}" false
             ltac:(repeat constructor; simpl; intuition discriminate) eq_refl).
  reflexivity.
Defined.

(** The fetch-all branch written with named loops: [fetch_tags] is the
    inner [for val_type, val in val_dict.items()], [fetch_rows] the outer
    [for key, val_dict in dynamo_row.items()]. *)
Definition fetch_value (json_loads : string -> option pyval) (row_mapper : dict string)
           (nojson : bool) (val_dict : pyval) (val_type : string) (val : pyval) : res pyval :=
  if String.eqb val_type "N" then decode_N val
  else if String.eqb val_type "M" then
    let* d := decode_all json_loads val row_mapper false in Ok (PDict d)
  else if String.eqb val_type "S" then decode_S json_loads nojson val
  else type_deserialize val_dict.

Fixpoint fetch_tags (json_loads : string -> option pyval) (row_mapper : dict string)
         (nojson : bool) (key : string) (val_dict : pyval) (ts : list (string * pyval))
         (result : dict pyval) : res (dict pyval) :=
  match ts with
  | [] => Ok result
  | (val_type, val) :: ts' =>
      let* v := fetch_value json_loads row_mapper nojson val_dict val_type val in
      fetch_tags json_loads row_mapper nojson key val_dict ts' (dict_set result key v)
  end.

Fixpoint fetch_rows (json_loads : string -> option pyval) (row_mapper : dict string)
         (nojson : bool) (es : list (string * pyval)) (result : dict pyval)
  : res (dict pyval) :=
  match es with
  | [] => Ok result
  | (key, val_dict) :: es' =>
      match val_dict with
      | PDict tvs =>
          let* result' := fetch_tags json_loads row_mapper nojson key val_dict tvs result in
          fetch_rows json_loads row_mapper nojson es' result'
      | _ => Err AttributeError
      end
  end.

Lemma decode_all_fetch_rows json_loads es row_mapper nojson :
  decode_all json_loads (PDict es) row_mapper nojson
  = fetch_rows json_loads row_mapper nojson es [].
Proof.
  simpl. generalize (@nil (string * pyval)) as result.
  induction es as [|[key val_dict] es IHes]; intro result; [reflexivity|].
  destruct val_dict as [| | | | |tvs| |]; try reflexivity.
  cbn [fetch_rows].
  remember (PDict tvs) as vd eqn:Hvd. clear Hvd.
  revert result.
  induction tvs as [|[val_type val] ts IHts]; intro result; [apply IHes|].
  cbn [fetch_tags]. unfold fetch_value.
  destruct (if String.eqb val_type "N" then decode_N val
            else if String.eqb val_type "M" then
              let* d := decode_all json_loads val row_mapper false in Ok (PDict d)
            else if String.eqb val_type "S" then decode_S json_loads nojson val
            else type_deserialize vd) as [v|e]; simpl; [apply IHts|reflexivity].
Qed.

Lemma fetch_tags_keys json_loads row_mapper nojson key vd ts :
  forall acc r, fetch_tags json_loads row_mapper nojson key vd ts acc = Ok r ->
  forall k, In k (dict_keys r) <-> In k (dict_keys acc) \/ (k = key /\ ts <> []).
Proof.
  induction ts as [|[t v] ts IH]; intros acc r Hrun k; simpl in Hrun.
  - inversion Hrun; subst. intuition.
  - destruct (fetch_value _ _ _ _ _ _) as [w|e]; simpl in Hrun; [|discriminate].
    rewrite (IH _ _ Hrun k), dict_keys_set. split.
    + intros [[H|H]|[H _]];
        [left; exact H|right; split; [exact H|discriminate]|right; split; [exact H|discriminate]].
    + intros [H|[H _]]; [left; left; exact H|left; right; exact H].
Qed.

Lemma fetch_rows_keys json_loads row_mapper nojson es :
  forall acc r, fetch_rows json_loads row_mapper nojson es acc = Ok r ->
  forall k, In k (dict_keys r) <->
            In k (dict_keys acc) \/ exists tvs, In (k, PDict tvs) es /\ tvs <> [].
Proof.
  induction es as [|[key vd] es IH]; intros acc r Hrun k; simpl in Hrun.
  - inversion Hrun; subst. split; [auto|intros [H|[tvs [[] _]]]; exact H].
  - destruct vd as [| | | | |tvs| |]; try discriminate.
    destruct (fetch_tags _ _ _ _ _ _ _) as [r1|e] eqn:Ht; simpl in Hrun; [|discriminate].
    rewrite (IH _ _ Hrun k), (fetch_tags_keys _ _ _ _ _ _ _ _ Ht k). split.
    + intros [[H|[-> H]]|[tvs' [H1 H2]]]; [now left| |].
      * right. exists tvs. split; [now left|exact H].
      * right. exists tvs'. split; [now right|exact H2].
    + intros [H|[tvs' [[H1|H1] H2]]]; [left; left; exact H| |].
      * inversion H1; subst. left. right. auto.
      * right. eauto.
Qed.

(** X13: in fetch-all mode a successful decoding has exactly the wire
    fields whose tagged value holds at least one tag; a field whose tagged
    value is empty is dropped. *)
Theorem dynamo_to_dict_fetch_all_keys (json_loads : string -> option pyval)
        (es : list (string * pyval)) (row_mapper : dict string) (nojson : bool)
        (out : dict pyval) :
  dynamo_to_dict json_loads (PDict es) row_mapper true nojson = Ok out ->
  forall k, In k (dict_keys out) <-> exists tvs, In (k, PDict tvs) es /\ tvs <> [].
Proof.
  unfold dynamo_to_dict. cbn [negb]. rewrite decode_all_fetch_rows.
  intros Hrun k. rewrite (fetch_rows_keys _ _ _ _ _ _ Hrun k). simpl. tauto.
Qed.

Lemma dynamo_to_dict_fetch_all_keys_witness :
  (In "e" (dict_keys [("f", PInt 1)]) <->
   exists tvs, In ("e", PDict tvs) [("e", PDict []); ("f", PDict [("N", PStr "1")])] /\
               tvs <> []).
Proof.
  exact (dynamo_to_dict_fetch_all_keys json_loads_model
           [("e", PDict []); ("f", PDict [("N", PStr "1")])] [] false [("f", PInt 1)]
           eq_refl "e").
Defined.



Lemma dict_get_NoDup_In {A : Type} (l : dict A) k v :
  NoDup (dict_keys l) -> In (k, v) l -> dict_get l k = Some v.
Proof.
  induction l as [|[k0 v0] l IH]; intros Hnd Hin; [destruct Hin|].
  simpl in Hnd. inversion Hnd as [|? ? Hnin Hnd']; subst.
  simpl. destruct Hin as [Heq|Hin].
  - inversion Heq; subst. now rewrite String.eqb_refl.
  - destruct (String.eqb k k0) eqn:E.
    + apply String.eqb_eq in E. subst k0. exfalso. apply Hnin.
      apply (in_map fst) in Hin. exact Hin.
    + exact (IH Hnd' Hin).
Qed.



(** ** [str] of an [int] read back by [int] *)

Lemma string_of_uint_digits d :
  forallb is_digit (list_ascii_of_string (NilEmpty.string_of_uint d)) = true.
Proof. induction d; simpl; exact IHd || reflexivity. Qed.

Lemma string_of_uint_acc d acc :
  fold_left (fun acc c => (acc * 10 + digit_val c)%Z)
            (list_ascii_of_string (NilEmpty.string_of_uint d)) (Zpos acc)
  = Zpos (Pos.of_uint_acc d acc).
Proof.
  revert acc. induction d; intro acc; [reflexivity| ..];
    cbn [NilEmpty.string_of_uint list_ascii_of_string fold_left Pos.of_uint_acc];
    rewrite <- IHd; f_equal; unfold digit_val; simpl (Z.of_nat _); lia.
Qed.

Lemma string_of_uint_value d :
  fold_left (fun acc c => (acc * 10 + digit_val c)%Z)
            (list_ascii_of_string (NilEmpty.string_of_uint d)) 0%Z
  = Z.of_N (Pos.of_uint d).
Proof.
  induction d; simpl; try reflexivity; try exact IHd; apply string_of_uint_acc.
Qed.

Lemma digit_not_minus c : is_digit c = true -> Ascii.eqb c "-" = false.
Proof.
  intro H. destruct (Ascii.eqb c "-") eqn:E; [|reflexivity].
  apply Ascii.eqb_eq in E. subst c. discriminate.
Qed.

Lemma Z_to_string_int_string z :
  is_int_string (Z_to_string z) = true /\ int_string_value (Z_to_string z) = z.
Proof.
  destruct z as [|p|p]; [split; reflexivity| |].
  - unfold Z_to_string, is_int_string, int_string_value. simpl.
    pose proof (DecimalPos.Unsigned.to_uint_nonnil p) as Hnn.
    pose proof (string_of_uint_digits (Pos.to_uint p)) as Hd.
    pose proof (string_of_uint_value (Pos.to_uint p)) as Hv.
    rewrite DecimalPos.Unsigned.of_to in Hv.
    destruct (list_ascii_of_string (NilEmpty.string_of_uint (Pos.to_uint p))) as [|c r] eqn:E.
    + destruct (Pos.to_uint p); try discriminate; contradiction.
    + simpl in Hd. pose proof Hd as Hd'. apply andb_prop in Hd'.
      rewrite (digit_not_minus c (proj1 Hd')). split; [exact Hd|exact Hv].
  - unfold Z_to_string, is_int_string, int_string_value. simpl.
    pose proof (DecimalPos.Unsigned.to_uint_nonnil p) as Hnn.
    pose proof (string_of_uint_digits (Pos.to_uint p)) as Hd.
    pose proof (string_of_uint_value (Pos.to_uint p)) as Hv.
    rewrite DecimalPos.Unsigned.of_to in Hv.
    destruct (list_ascii_of_string (NilEmpty.string_of_uint (Pos.to_uint p))) as [|c r] eqn:E.
    + destruct (Pos.to_uint p); try discriminate; contradiction.
    + split; [exact Hd|]. unfold digits_value. rewrite Hv. reflexivity.
Qed.

Lemma py_int_Z_to_string z : py_int (Z_to_string z) = Some z.
Proof.
  destruct (Z_to_string_int_string z) as [H1 H2].
  rewrite (py_int_int_string _ H1). now rewrite H2.
Qed.

Lemma Z_to_string_no_dot z : has_char "." (Z_to_string z) = false.
Proof. apply int_string_no_dot. apply Z_to_string_int_string. Qed.

(** * Encoding then decoding *)

Lemma for_res_ok {A B : Type} (f : B -> A -> res B) :
  forall l acc, (forall x acc, In x l -> exists acc', f acc x = Ok acc') ->
  exists r, for_res f l acc = Ok r.
Proof.
  induction l as [|x l IH]; intros acc H; simpl; [now exists acc|].
  destruct (H x acc (or_introl eq_refl)) as [acc' Hx]. rewrite Hx. simpl.
  apply IH. intros y a Hy. apply H. now right.
Qed.

(** Default mode does not raise when no declared field raises on its own. *)
Lemma decode_default_ok (json_loads : string -> option pyval)
      (dynamo_row : pyval) (row_mapper : dict string) (nojson : bool) :
  (forall k t, In (k, t) row_mapper ->
     exists d, decode_mapped_field json_loads dynamo_row row_mapper nojson [] (k, t) = Ok d) ->
  exists out, dynamo_to_dict json_loads dynamo_row row_mapper false nojson = Ok out.
Proof.
  intro H. unfold dynamo_to_dict. cbn [negb]. apply for_res_ok.
  intros [k t] acc Hin. rewrite decode_mapped_field_alone.
  destruct (H k t Hin) as [d Hd]. rewrite Hd. cbn [bind]. eexists; reflexivity.
Qed.

(** The declared field shapes that survive encoding and decoding: an [int]
    declared [N], a [bool] declared [BOOL], and a [str] declared [S] that
    is not handed to [json.loads] on the way back. *)
Definition roundtrip_shape (nojson : bool) (t : string) (v : pyval) : bool :=
  match v with
  | PInt _ => String.eqb t "N"
  | PStr s => String.eqb t "S" && negb (py_startswith "{" s && py_endswith "}" s && negb nojson)
  | PBool _ => String.eqb t "BOOL"
  | _ => false
  end.

Lemma roundtrip_field (json_loads : string -> option pyval) (row_dict : dict pyval)
      (row_mapper : dict string) (nojson : bool) (out : dict pyval) (k t : string) :
  NoDup (dict_keys row_mapper) ->
  (forall k t v, dict_get row_mapper k = Some t -> dict_get row_dict k = Some v ->
     roundtrip_shape nojson t v = true) ->
  dict_to_dynamo row_dict row_mapper None = Ok out ->
  dict_get row_mapper k = Some t ->
  decode_mapped_field json_loads (PDict out) row_mapper nojson [] (k, t)
  = Ok (match dict_get row_dict k with Some v => [(k, v)] | None => [] end).
Proof.
  intros Hnd Hshape Hrun Hk.
  destruct (dict_get row_dict k) as [v|] eqn:Hv.
  - pose proof (Hshape k t v Hk Hv) as Hs.
    assert (Hn : v <> PNone) by (intro; subst; discriminate).
    destruct (declared_field_encoded _ _ _ _ k t v Hnd Hk Hv Hn Hrun) as [w [Hw Hg]].
    change (prefix_of None ++ k) with k in Hg.
    unfold decode_mapped_field. cbn [py_get]. rewrite Hg. cbn [bind].
    destruct v as [| b | z | d | s | kvs | vs | o p]; try discriminate.
    + cbn [roundtrip_shape] in Hs. apply String.eqb_eq in Hs. subst t.
      unfold encode_mapped in Hw. cbn in Hw. injection Hw as <-. reflexivity.
    + cbn [roundtrip_shape] in Hs. apply String.eqb_eq in Hs. subst t.
      unfold encode_mapped in Hw. cbn in Hw. injection Hw as <-. cbn.
      rewrite Z_to_string_no_dot, py_int_Z_to_string. reflexivity.
    + cbn [roundtrip_shape] in Hs. apply andb_prop in Hs. destruct Hs as [Ht Hj].
      apply String.eqb_eq in Ht. subst t. apply negb_true_iff in Hj.
      unfold encode_mapped in Hw. cbn in Hw. injection Hw as <-. cbn.
      rewrite Hj. reflexivity.
  - unfold decode_mapped_field. cbn [py_get].
    destruct (dict_get out k) as [w|] eqn:Hg; [|reflexivity].
    exfalso. apply (dict_get_not_in_keys _ _ Hv).
    destruct (proj1 (dict_to_dynamo_keys _ _ _ _ Hrun k) (dict_get_in_keys _ _ _ Hg))
      as [k0 [Hin Heq]].
    change (prefix_of None ++ k0) with k0 in Heq. subst k0. exact Hin.
Qed.

(** X15: encoding a row and decoding the result with the same schema (no
    prefix, default mode) gives back exactly the declared fields, with
    their values, when every declared field present in the row is an
    [int] declared [N], a [bool] declared [BOOL], or a [str] declared [S]
    that does not look like a JSON object (or JSON decoding is off);
    undeclared fields are dropped on the way back. *)
Theorem dict_to_dynamo_roundtrip (json_loads : string -> option pyval)
        (row_dict : dict pyval) (row_mapper : dict string) (nojson : bool)
        (out : dict pyval) :
  NoDup (dict_keys row_mapper) ->
  (forall k t v, dict_get row_mapper k = Some t -> dict_get row_dict k = Some v ->
     roundtrip_shape nojson t v = true) ->
  dict_to_dynamo row_dict row_mapper None = Ok out ->
  exists dec, dynamo_to_dict json_loads (PDict out) row_mapper false nojson = Ok dec /\
    forall k, dict_get dec k = match dict_get row_mapper k with
                               | Some _ => dict_get row_dict k
                               | None => None
                               end.
Proof.
  intros Hnd Hsh Hrun.
  destruct (decode_default_ok json_loads (PDict out) row_mapper nojson) as [dec Hdec].
  { intros k t Hin.
    rewrite (roundtrip_field json_loads row_dict row_mapper nojson out k t Hnd Hsh Hrun
               (dict_get_NoDup_In _ _ _ Hnd Hin)).
    eexists; reflexivity. }
  exists dec. split; [exact Hdec|]. intro k.
  pose proof (decode_default_lookup _ _ _ _ _ Hnd Hdec k) as Hl.
  destruct (dict_get row_mapper k) as [t|] eqn:Hk; [|exact Hl].
  unfold decoded_alone in Hl.
  rewrite (roundtrip_field json_loads row_dict row_mapper nojson out k t Hnd Hsh Hrun Hk) in Hl.
  cbn [bind] in Hl. injection Hl as Hl. rewrite <- Hl.
  destruct (dict_get row_dict k); cbn [dict_get]; [now rewrite String.eqb_refl|reflexivity].
Qed.

Lemma dict_to_dynamo_roundtrip_witness :
  NoDup (dict_keys [("a", "N"); ("b", "S"); ("c", "BOOL")]) /\
  (forall k t v, dict_get [("a", "N"); ("b", "S"); ("c", "BOOL")] k = Some t ->
     dict_get [("a", PInt 5); ("b", PStr "hi"); ("c", PBool true); ("d", PStr "x")] k = Some v ->
     roundtrip_shape false t v = true) /\
  exists dec, dynamo_to_dict json_loads_model
      (PDict [("a", PDict [("N", PStr "5")]); ("b", PDict [("S", PStr "hi")]);
              ("c", PDict [("BOOL", PBool true)]); ("d", PDict [("S", PStr "x")])])
      [("a", "N"); ("b", "S"); ("c", "BOOL")] false false = Ok dec /\
    forall k, dict_get dec k =
      match dict_get [("a", "N"); ("b", "S"); ("c", "BOOL")] k with
      | Some _ => dict_get [("a", PInt 5); ("b", PStr "hi"); ("c", PBool true); ("d", PStr "x")] k
      | None => None
      end.
Proof.
  assert (Hnd : NoDup (dict_keys [("a", "N"); ("b", "S"); ("c", "BOOL")])).
  { repeat constructor; simpl; intuition discriminate. }
  assert (Hsh : forall k t v, dict_get [("a", "N"); ("b", "S"); ("c", "BOOL")] k = Some t ->
     dict_get [("a", PInt 5); ("b", PStr "hi"); ("c", PBool true); ("d", PStr "x")] k = Some v ->
     roundtrip_shape false t v = true).
  { intros k t v Hk Hv. cbn [dict_get] in Hk, Hv.
    destruct (String.eqb k "a"); [injection Hk as <-; injection Hv as <-; reflexivity|].
    destruct (String.eqb k "b"); [injection Hk as <-; injection Hv as <-; reflexivity|].
    destruct (String.eqb k "c"); [injection Hk as <-; injection Hv as <-; reflexivity|].
    discriminate. }
  split; [exact Hnd|]. split; [exact Hsh|].
  apply (dict_to_dynamo_roundtrip json_loads_model
           [("a", PInt 5); ("b", PStr "hi"); ("c", PBool true); ("d", PStr "x")]
           [("a", "N"); ("b", "S"); ("c", "BOOL")] false); [exact Hnd|exact Hsh|].
  reflexivity.
Defined.

(** A declared field whose native value is [None] reaches the wire as
    [{NULL: True}]. *)
Lemma declared_none_on_wire (row_dict : dict pyval) (row_mapper : dict string)
      (out : dict pyval) (k : string) :
  dict_get row_dict k = Some PNone ->
  dict_to_dynamo row_dict row_mapper None = Ok out ->
  dict_get out k = Some (PDict [("NULL", PBool true)]).
Proof.
  intros Hf Hrun.
  destruct (dict_to_dynamo_unmapped _ _ _ _ k Hrun) as [w [Hw Hg]].
  - eapply dict_get_in_keys; eauto.
  - intros [_ [v [Hv Hn]]]. congruence.
  - unfold native_val in Hw. rewrite Hf in Hw. cbn in Hw.
    injection Hw as <-. exact Hg.
Qed.

(** X16: a field declared [N], [S] or [M] whose native value is [None] is
    encoded as [{NULL: True}]; decoding the encoded row with the same
    schema then raises, since the decoder looks up the declared tag in
    that value and gets [None]. *)
Theorem dict_to_dynamo_declared_none_breaks_decode (json_loads : string -> option pyval)
        (row_dict : dict pyval) (row_mapper : dict string) (nojson : bool)
        (out : dict pyval) (k t : string) :
  dict_get row_mapper k = Some t -> (t = "N" \/ t = "S" \/ t = "M") ->
  dict_get row_dict k = Some PNone ->
  dict_to_dynamo row_dict row_mapper None = Ok out ->
  dict_get out k = Some (PDict [("NULL", PBool true)]) /\
  exists e, dynamo_to_dict json_loads (PDict out) row_mapper false nojson = Err e.
Proof.
  intros Hk Ht Hf Hrun.
  pose proof (declared_none_on_wire _ _ _ _ Hf Hrun) as Hg.
  split; [exact Hg|].
  destruct Ht as [->|[->| ->]]; eapply decode_default_raises; try exact Hk;
    unfold decode_mapped_field; cbn [py_get]; rewrite Hg; reflexivity.
Qed.

Lemma dict_to_dynamo_declared_none_breaks_decode_witness :
  dict_to_dynamo [("f", PNone); ("g", PInt 1)] [("f", "N"); ("g", "N")] None
    = Ok [("g", PDict [("N", PStr "1")]); ("f", PDict [("NULL", PBool true)])] /\
  dict_get [("g", PDict [("N", PStr "1")]); ("f", PDict [("NULL", PBool true)])] "f"
    = Some (PDict [("NULL", PBool true)]) /\
  exists e, dynamo_to_dict json_loads_model
              (PDict [("g", PDict [("N", PStr "1")]); ("f", PDict [("NULL", PBool true)])])
              [("f", "N"); ("g", "N")] false false = Err e.
Proof.
  split; [reflexivity|].
  apply (dict_to_dynamo_declared_none_breaks_decode json_loads_model
           [("f", PNone); ("g", PInt 1)] [("f", "N"); ("g", "N")] false _ "f" "N");
    [reflexivity|now left|reflexivity|reflexivity].
Defined.

Lemma type_deserialize_null :
  type_deserialize (PDict [("NULL", PBool true)]) = Ok PNone.
Proof. reflexivity. Qed.

(** X17: a field declared with a tag other than [N], [S] and [M] (such as
    [BOOL]) whose native value is [None] comes back as [None] when the
    encoded row is decoded with the same schema. *)
Theorem dict_to_dynamo_declared_none_roundtrip (json_loads : string -> option pyval)
        (row_dict : dict pyval) (row_mapper : dict string) (nojson : bool)
        (out dec : dict pyval) (k t : string) :
  NoDup (dict_keys row_mapper) ->
  dict_get row_mapper k = Some t -> t <> "N" -> t <> "S" -> t <> "M" ->
  dict_get row_dict k = Some PNone ->
  dict_to_dynamo row_dict row_mapper None = Ok out ->
  dynamo_to_dict json_loads (PDict out) row_mapper false nojson = Ok dec ->
  dict_get dec k = Some PNone.
Proof.
  intros Hnd Hk HN HS HM Hf Hrun Hdec.
  pose proof (declared_none_on_wire _ _ _ _ Hf Hrun) as Hg.
  pose proof (decode_default_lookup _ _ _ _ _ Hnd Hdec k) as Hl.
  rewrite Hk in Hl. unfold decoded_alone, decode_mapped_field in Hl.
  cbn [py_get] in Hl. rewrite Hg in Hl. cbn [py_truthy bind] in Hl.
  apply String.eqb_neq in HN, HS, HM. rewrite HN, HM, HS in Hl.
  rewrite type_deserialize_null in Hl. cbn [bind dict_set dict_get py_get] in Hl. rewrite String.eqb_refl in Hl. injection Hl as Hl. now rewrite <- Hl.
Qed.

Lemma dict_to_dynamo_declared_none_roundtrip_witness :
  dict_to_dynamo [("f", PNone); ("g", PBool false)] [("f", "BOOL"); ("g", "BOOL")] None
    = Ok [("g", PDict [("BOOL", PBool false)]); ("f", PDict [("NULL", PBool true)])] /\
  dynamo_to_dict json_loads_model
    (PDict [("g", PDict [("BOOL", PBool false)]); ("f", PDict [("NULL", PBool true)])])
    [("f", "BOOL"); ("g", "BOOL")] false false = Ok [("f", PNone); ("g", PBool false)] /\
  dict_get [("f", PNone); ("g", PBool false)] "f" = Some PNone.
Proof.
  split; [reflexivity|]. split; [reflexivity|].
  assert (Hnd : NoDup (dict_keys [("f", "BOOL"); ("g", "BOOL")]))
    by (repeat constructor; simpl; intuition discriminate).
  apply (dict_to_dynamo_declared_none_roundtrip json_loads_model
           [("f", PNone); ("g", PBool false)] [("f", "BOOL"); ("g", "BOOL")] false
           [("g", PDict [("BOOL", PBool false)]); ("f", PDict [("NULL", PBool true)])]
           _ "f" "BOOL");
    [exact Hnd|reflexivity|discriminate|discriminate|discriminate
    |reflexivity|reflexivity|reflexivity].
Defined.

(** * More of the fetch-all branch *)

Lemma fetch_tags_other json_loads row_mapper nojson key vd ts :
  forall acc r, fetch_tags json_loads row_mapper nojson key vd ts acc = Ok r ->
  forall k, k <> key -> dict_get r k = dict_get acc k.
Proof.
  induction ts as [|[t v] ts IH]; intros acc r Hrun k Hk; simpl in Hrun.
  - now injection Hrun as <-.
  - destruct (fetch_value _ _ _ _ _ _) as [w|e]; simpl in Hrun; [|discriminate].
    rewrite (IH _ _ Hrun k Hk). now apply dict_get_set_other.
Qed.

Lemma fetch_tags_last json_loads row_mapper nojson key vd ts0 t v :
  forall acc r, fetch_tags json_loads row_mapper nojson key vd (ts0 ++ [(t, v)]) acc = Ok r ->
  exists w, fetch_value json_loads row_mapper nojson vd t v = Ok w /\ dict_get r key = Some w.
Proof.
  induction ts0 as [|[t0 v0] ts0 IH]; intros acc r Hrun; simpl in Hrun.
  - destruct (fetch_value _ _ _ _ _ _) as [w|e]; simpl in Hrun; [|discriminate].
    injection Hrun as <-. exists w. split; [reflexivity|]. apply dict_get_set_same.
  - destruct (fetch_value _ _ _ _ t0 v0) as [w|e]; simpl in Hrun; [|discriminate].
    exact (IH _ _ Hrun).
Qed.

Lemma fetch_rows_other json_loads row_mapper nojson es :
  forall acc r, fetch_rows json_loads row_mapper nojson es acc = Ok r ->
  forall k, ~ In k (dict_keys es) -> dict_get r k = dict_get acc k.
Proof.
  induction es as [|[key vd] es IH]; intros acc r Hrun k Hk; simpl in Hrun.
  - now injection Hrun as <-.
  - destruct vd as [| | | | |tvs| |]; try discriminate.
    destruct (fetch_tags _ _ _ _ _ _ _) as [r1|e] eqn:Ht; simpl in Hrun; [|discriminate].
    rewrite (IH _ _ Hrun k) by (intro; apply Hk; now right).
    apply (fetch_tags_other _ _ _ _ _ _ _ _ Ht). intro; subst; apply Hk; now left.
Qed.

Lemma fetch_rows_last json_loads row_mapper nojson es k ts0 t v :
  NoDup (dict_keys es) -> In (k, PDict (ts0 ++ [(t, v)])) es ->
  forall acc r, fetch_rows json_loads row_mapper nojson es acc = Ok r ->
  exists w, fetch_value json_loads row_mapper nojson (PDict (ts0 ++ [(t, v)])) t v = Ok w
            /\ dict_get r k = Some w.
Proof.
  induction es as [|[key vd] es IH]; intros Hnd Hin acc r Hrun; [destruct Hin|].
  simpl in Hnd. inversion Hnd as [|? ? Hnin Hnd']; subst.
  simpl in Hrun.
  destruct vd as [| | | | |tvs| |]; try discriminate.
  destruct (fetch_tags _ _ _ _ _ _ _) as [r1|e] eqn:Ht; simpl in Hrun; [|discriminate].
  destruct Hin as [Heq|Hin].
  - injection Heq as -> ->.
    destruct (fetch_tags_last _ _ _ _ _ _ _ _ _ _ Ht) as [w [Hw Hg]].
    exists w. split; [exact Hw|].
    rewrite (fetch_rows_other _ _ _ _ _ _ Hrun k Hnin). exact Hg.
  - exact (IH Hnd' Hin _ _ Hrun).
Qed.

(** X18: in fetch-all mode, when a wire field's tagged value holds several
    tags, each is decoded in turn into the same result key, so the field
    ends up with the decoding of its last tag. *)
Theorem dynamo_to_dict_fetch_all_last_tag (json_loads : string -> option pyval)
        (es : list (string * pyval)) (row_mapper : dict string) (nojson : bool)
        (out : dict pyval) (k : string) (ts0 : list (string * pyval)) (t : string) (v : pyval) :
  NoDup (dict_keys es) -> In (k, PDict (ts0 ++ [(t, v)])) es ->
  dynamo_to_dict json_loads (PDict es) row_mapper true nojson = Ok out ->
  exists w, fetch_value json_loads row_mapper nojson (PDict (ts0 ++ [(t, v)])) t v = Ok w
            /\ dict_get out k = Some w.
Proof.
  intros Hnd Hin. unfold dynamo_to_dict. cbn [negb]. rewrite decode_all_fetch_rows.
  exact (fetch_rows_last _ _ _ _ _ _ _ _ Hnd Hin [] out).
Qed.

Lemma dynamo_to_dict_fetch_all_last_tag_witness :
  dynamo_to_dict json_loads_model
    (PDict [("f", PDict [("S", PStr "a"); ("N", PStr "2")])]) [] true false
    = Ok [("f", PInt 2)] /\
  exists w, fetch_value json_loads_model [] false
              (PDict ([("S", PStr "a")] ++ [("N", PStr "2")])) "N" (PStr "2") = Ok w
            /\ dict_get [("f", PInt 2)] "f" = Some w.
Proof.
  split; [reflexivity|].
  apply (dynamo_to_dict_fetch_all_last_tag json_loads_model
           [("f", PDict [("S", PStr "a"); ("N", PStr "2")])] [] false [("f", PInt 2)]
           "f" [("S", PStr "a")] "N" (PStr "2"));
    [repeat constructor; simpl; tauto|now left|reflexivity].
Defined.

Lemma fetch_rows_all_dicts json_loads row_mapper nojson es :
  forall acc r, fetch_rows json_loads row_mapper nojson es acc = Ok r ->
  forall k vd, In (k, vd) es -> exists tvs, vd = PDict tvs.
Proof.
  induction es as [|[key vd0] es IH]; intros acc r Hrun k vd Hin; [destruct Hin|].
  simpl in Hrun. destruct vd0 as [| | | | |tvs| |]; try discriminate.
  destruct (fetch_tags _ _ _ _ _ _ _) as [r1|e]; simpl in Hrun; [|discriminate].
  destruct Hin as [Heq|Hin].
  - injection Heq as _ <-. now exists tvs.
  - exact (IH _ _ Hrun k vd Hin).
Qed.

(** X19: a wire field whose value is not a dict: in fetch-all mode it
    makes the decoder raise (it has no [items]); in default mode, for a
    declared field, it makes the decoder raise when it is truthy (it has
    no [get]) and is skipped when it is falsy or absent. *)
Theorem dynamo_to_dict_non_dict_value (json_loads : string -> option pyval)
        (es : list (string * pyval)) (row_mapper : dict string) (nojson : bool) :
  (forall k vd, In (k, vd) es -> (forall tvs, vd <> PDict tvs) ->
     exists e, dynamo_to_dict json_loads (PDict es) row_mapper true nojson = Err e) /\
  (forall k t vd, dict_get row_mapper k = Some t -> dict_get es k = Some vd ->
     py_truthy vd = true -> (forall tvs, vd <> PDict tvs) ->
     exists e, dynamo_to_dict json_loads (PDict es) row_mapper false nojson = Err e) /\
  (forall k t, match dict_get es k with Some vd => py_truthy vd | None => false end = false ->
     decoded_alone json_loads (PDict es) row_mapper nojson k t = Ok None).
Proof.
  split; [|split].
  - intros k vd Hin Hnd. unfold dynamo_to_dict. cbn [negb].
    rewrite decode_all_fetch_rows.
    destruct (fetch_rows json_loads row_mapper nojson es []) as [r|e] eqn:Hrun;
      [|now exists e].
    destruct (fetch_rows_all_dicts _ _ _ _ _ _ Hrun k vd Hin) as [tvs Htvs].
    exfalso. exact (Hnd tvs Htvs).
  - intros k t vd Hk Hg Ht Hnd. eapply decode_default_raises; [exact Hk|].
    unfold decode_mapped_field. cbn [py_get]. rewrite Hg. cbn [bind]. rewrite Ht. cbn [bind].
    destruct vd as [| | | | |tvs| |]; try reflexivity. exfalso. exact (Hnd tvs eq_refl).
  - intros k t Hf. unfold decoded_alone, decode_mapped_field. cbn [py_get].
    destruct (dict_get es k) as [vd|]; cbn [bind].
    + rewrite Hf. reflexivity.
    + reflexivity.
Qed.

Lemma dynamo_to_dict_non_dict_value_witness :
  (exists e, dynamo_to_dict json_loads_model (PDict [("f", PStr "x")]) [] true false = Err e) /\
  (exists e, dynamo_to_dict json_loads_model (PDict [("f", PStr "x")]) [("f", "S")] false false
             = Err e) /\
  decoded_alone json_loads_model (PDict [("f", PStr "")]) [("f", "S")] false "f" "S" = Ok None.
Proof.
  destruct (dynamo_to_dict_non_dict_value json_loads_model [("f", PStr "x")] [("f", "S")] false)
    as [H1 [H2 _]].
  destruct (dynamo_to_dict_non_dict_value json_loads_model [("f", PStr "")] [("f", "S")] false)
    as [_ [_ H3]].
  split; [|split].
  - destruct (dynamo_to_dict_non_dict_value json_loads_model [("f", PStr "x")] [] false)
      as [H0 _].
    apply (H0 "f" (PStr "x")); [now left|discriminate].
  - apply (H2 "f" "S" (PStr "x")); [reflexivity|reflexivity|reflexivity|discriminate].
  - apply H3. reflexivity.
Defined.

(** * Which fields the decoder produces, and from which tag *)

(** The value the default branch computes for a declared field of tag
    [key_type] from its non-empty wire value [val_dict]. *)
Definition decode_declared (json_loads : string -> option pyval) (row_mapper : dict string)
           (nojson : bool) (val_dict : pyval) (key_type : string) : res pyval :=
  let* val := py_get val_dict key_type in
  if String.eqb key_type "N" then decode_N val
  else if String.eqb key_type "M" then
    let* d := decode_all json_loads val row_mapper false in Ok (PDict d)
  else if String.eqb key_type "S" then decode_S json_loads nojson val
  else type_deserialize val_dict.

Lemma decode_mapped_field_declared json_loads kvs row_mapper nojson k t vd :
  dict_get kvs k = Some vd -> py_truthy vd = true ->
  decode_mapped_field json_loads (PDict kvs) row_mapper nojson [] (k, t)
  = let* v := decode_declared json_loads row_mapper nojson vd t in Ok [(k, v)].
Proof.
  intros Hg Ht. unfold decode_mapped_field, decode_declared. cbn [py_get]. rewrite Hg.
  cbn [bind]. rewrite Ht. destruct (py_get vd t) as [val|e]; cbn [bind]; [|reflexivity].
  set (x := if String.eqb t "N" then _ else _). destruct x; reflexivity.
Qed.

Lemma decode_default_declared_value json_loads kvs row_mapper nojson out k t vd :
  NoDup (dict_keys row_mapper) ->
  dynamo_to_dict json_loads (PDict kvs) row_mapper false nojson = Ok out ->
  dict_get row_mapper k = Some t -> dict_get kvs k = Some vd -> py_truthy vd = true ->
  exists v, decode_declared json_loads row_mapper nojson vd t = Ok v /\ dict_get out k = Some v.
Proof.
  intros Hnd Hrun Hk Hg Ht.
  pose proof (decode_default_lookup _ _ _ _ _ Hnd Hrun k) as Hl. rewrite Hk in Hl.
  unfold decoded_alone in Hl.
  rewrite (decode_mapped_field_declared _ _ _ _ _ _ _ Hg Ht) in Hl.
  destruct (decode_declared json_loads row_mapper nojson vd t) as [v|e];
    cbn [bind] in Hl; [|discriminate].
  exists v. split; [reflexivity|]. cbn [dict_get] in Hl. rewrite String.eqb_refl in Hl.
  injection Hl as Hl. symmetry. exact Hl.
Qed.

Lemma decode_default_keys json_loads kvs row_mapper nojson out :
  dynamo_to_dict json_loads (PDict kvs) row_mapper false nojson = Ok out ->
  forall k, In k (dict_keys out) <-> In k (dict_keys row_mapper) /\ wire_present kvs k.
Proof.
  intro Hrun. unfold dynamo_to_dict in Hrun. cbn [negb] in Hrun.
  pose (P := fun (done : dict string) (acc : dict pyval) =>
               forall k, In k (dict_keys acc) <-> In k (dict_keys done) /\ wire_present kvs k).
  assert (HP : P ([] ++ row_mapper)%list out).
  { apply (for_res_inv (decode_mapped_field json_loads (PDict kvs) row_mapper nojson)
             P row_mapper [] [] out); [| |exact Hrun].
    - intros done [key key_type] acc acc' Hacc Hstep. unfold P in *. intro k.
      rewrite (decode_mapped_field_keys _ _ _ _ _ _ _ _ Hstep k), Hacc.
      unfold dict_keys. rewrite map_app, in_app_iff. simpl.
      split.
      + intros [[H1 H2]|[-> H2]]; split; auto.
      + intros [[H1|[H1|[]]] H2]; [left; auto|right; subst; auto].
    - intro k. simpl. tauto. }
  exact HP.
Qed.

(** C2 (corrected): the decoder has no field filter.  In default mode a
    field appears in the result exactly when the schema declares it and
    the wire record holds a non-empty value for it (an undeclared field is
    dropped), and its value is the decoding of that wire value for the
    declared tag ([decode_declared]: the payload under tag [N], [S] or
    [M], the whole wire value through boto3's deserializer for any other
    tag).  In fetch-all mode a field appears exactly when its wire value
    holds at least one tag, its tags are decoded in turn and the last one's
    value is kept, and the schema is not consulted. *)
Theorem C2_decoder_field_selection :
  (forall (json_loads : string -> option pyval) (kvs : list (string * pyval))
          (row_mapper : dict string) (nojson : bool) (out : dict pyval),
     dynamo_to_dict json_loads (PDict kvs) row_mapper false nojson = Ok out ->
     forall k, In k (dict_keys out) <->
               In k (dict_keys row_mapper) /\ wire_present kvs k) /\
  (forall (json_loads : string -> option pyval) (kvs : list (string * pyval))
          (row_mapper : dict string) (nojson : bool) (out : dict pyval)
          (k t : string) (vd : pyval),
     NoDup (dict_keys row_mapper) ->
     dynamo_to_dict json_loads (PDict kvs) row_mapper false nojson = Ok out ->
     dict_get row_mapper k = Some t -> dict_get kvs k = Some vd -> py_truthy vd = true ->
     exists v, decode_declared json_loads row_mapper nojson vd t = Ok v /\
               dict_get out k = Some v) /\
  (forall (json_loads : string -> option pyval) (es : list (string * pyval))
          (row_mapper : dict string) (nojson : bool) (out : dict pyval),
     dynamo_to_dict json_loads (PDict es) row_mapper true nojson = Ok out ->
     forall k, In k (dict_keys out) <-> exists tvs, In (k, PDict tvs) es /\ tvs <> []) /\
  (forall (json_loads : string -> option pyval) (es : list (string * pyval))
          (row_mapper : dict string) (nojson : bool) (out : dict pyval)
          (k : string) (ts0 : list (string * pyval)) (t : string) (v : pyval),
     NoDup (dict_keys es) -> In (k, PDict (ts0 ++ [(t, v)])) es ->
     dynamo_to_dict json_loads (PDict es) row_mapper true nojson = Ok out ->
     exists w, fetch_value json_loads row_mapper nojson (PDict (ts0 ++ [(t, v)])) t v = Ok w
               /\ dict_get out k = Some w) /\
  (forall (json_loads : string -> option pyval) (dynamo_row : pyval)
          (rm1 rm2 : dict string) (nojson : bool),
     dynamo_to_dict json_loads dynamo_row rm1 true nojson
     = dynamo_to_dict json_loads dynamo_row rm2 true nojson).
Proof.
  split; [|split; [|split; [|split]]].
  - exact decode_default_keys.
  - exact decode_default_declared_value.
  - intros json_loads es row_mapper nojson out.
    unfold dynamo_to_dict. cbn [negb]. rewrite decode_all_fetch_rows.
    intros Hrun k. rewrite (fetch_rows_keys _ _ _ _ _ _ Hrun k). simpl. tauto.
  - intros json_loads es row_mapper nojson out k ts0 t v Hnd Hin.
    unfold dynamo_to_dict. cbn [negb]. rewrite decode_all_fetch_rows.
    exact (fetch_rows_last _ _ _ _ _ _ _ _ Hnd Hin [] out).
  - intros. apply decode_all_row_mapper_irrelevant.
Qed.

Lemma C2_decoder_field_selection_witness :
  dynamo_to_dict json_loads_model
    (PDict [("f", PDict [("N", PStr "1")]); ("u", PDict [("S", PStr "x")])])
    [("f", "N")] false false = Ok [("f", PInt 1)] /\
  (In "u" (dict_keys [("f", PInt 1)]) <->
   In "u" (dict_keys [("f", "N")]) /\
   wire_present [("f", PDict [("N", PStr "1")]); ("u", PDict [("S", PStr "x")])] "u") /\
  (exists v, decode_declared json_loads_model [("f", "N")] false (PDict [("N", PStr "1")]) "N"
             = Ok v /\ dict_get [("f", PInt 1)] "f" = Some v) /\
  (exists w, fetch_value json_loads_model [] false
               (PDict ([("S", PStr "a")] ++ [("N", PStr "2")])) "N" (PStr "2") = Ok w
             /\ dict_get [("f", PInt 2)] "f" = Some w).
Proof.
  destruct C2_decoder_field_selection as [H1 [H2 [_ [H4 _]]]].
  assert (Hrun : dynamo_to_dict json_loads_model
    (PDict [("f", PDict [("N", PStr "1")]); ("u", PDict [("S", PStr "x")])])
    [("f", "N")] false false = Ok [("f", PInt 1)]) by (vm_compute; reflexivity).
  split; [exact Hrun|]. split; [exact (H1 _ _ _ _ _ Hrun "u")|]. split.
  - apply (H2 json_loads_model
             [("f", PDict [("N", PStr "1")]); ("u", PDict [("S", PStr "x")])]
             [("f", "N")] false [("f", PInt 1)] "f" "N" (PDict [("N", PStr "1")]));
      [repeat constructor; simpl; tauto|exact Hrun|reflexivity|reflexivity|reflexivity].
  - apply (H4 json_loads_model [("f", PDict [("S", PStr "a"); ("N", PStr "2")])] []
             false [("f", PInt 2)] "f" [("S", PStr "a")] "N" (PStr "2"));
      [repeat constructor; simpl; tauto|now left|reflexivity].
Defined.

(** C2: a field the schema does not declare is not decoded from its wire
    tag but dropped. *)
Lemma C2_unknown_field_dropped :
  dynamo_to_dict json_loads_model (PDict [("u", PDict [("S", PStr "x")])]) [] false false
  = Ok [].
Proof. vm_compute. reflexivity. Qed.

(** * Declared tag against wire tag *)

Lemma for_res_app {A B : Type} (f : B -> A -> res B) l1 l2 acc :
  for_res f (l1 ++ l2) acc = let* a := for_res f l1 acc in for_res f l2 a.
Proof.
  revert acc. induction l1 as [|x l1 IH]; intro acc; simpl; [reflexivity|].
  destruct (f acc x); simpl; [apply IH|reflexivity].
Qed.

Lemma decode_declared_other json_loads row_mapper nojson tvs t :
  t <> "N" -> t <> "S" -> t <> "M" ->
  decode_declared json_loads row_mapper nojson (PDict tvs) t = type_deserialize (PDict tvs).
Proof.
  intros HN HS HM. unfold decode_declared. cbn [py_get bind].
  apply String.eqb_neq in HN, HS, HM. now rewrite HN, HM, HS.
Qed.

(** C10 (corrected): in default mode, a declared field of tag [N], [S] or
    [M] whose non-empty wire dict lacks that tag gets [None] as payload, and
    decoding it raises [TypeError] for [N] ([in] on [None]) and
    [AttributeError] for [S] and [M]; the call then raises, with that
    exception when the declared fields before it decode without error.
    For any other declared tag the declared tag is not looked up: the
    field's value is what boto3's deserializer gives for the whole wire
    value, with the tag on the wire, and the call raises when that
    raises. *)
Theorem C10_tag_mismatch :
  (forall (json_loads : string -> option pyval) (kvs : list (string * pyval))
          (pre post : dict string) (nojson : bool)
          (f t : string) (tvs : list (string * pyval)),
     t = "N" \/ t = "S" \/ t = "M" ->
     dict_get kvs f = Some (PDict tvs) -> tvs <> [] -> dict_get tvs t = None ->
     (forall acc, decode_mapped_field json_loads (PDict kvs) (pre ++ (f, t) :: post)%list
                                      nojson acc (f, t)
                  = Err (if String.eqb t "N" then TypeError else AttributeError)) /\
     (exists e, dynamo_to_dict json_loads (PDict kvs) (pre ++ (f, t) :: post)%list false nojson
                = Err e) /\
     (forall acc, for_res (decode_mapped_field json_loads (PDict kvs)
                             (pre ++ (f, t) :: post)%list nojson) pre [] = Ok acc ->
        dynamo_to_dict json_loads (PDict kvs) (pre ++ (f, t) :: post)%list false nojson
        = Err (if String.eqb t "N" then TypeError else AttributeError))) /\
  (forall (json_loads : string -> option pyval) (kvs : list (string * pyval))
          (row_mapper : dict string) (nojson : bool)
          (f t : string) (tvs : list (string * pyval)),
     NoDup (dict_keys row_mapper) -> dict_get row_mapper f = Some t ->
     t <> "N" -> t <> "S" -> t <> "M" ->
     dict_get kvs f = Some (PDict tvs) -> tvs <> [] ->
     (forall out, dynamo_to_dict json_loads (PDict kvs) row_mapper false nojson = Ok out ->
        exists v, type_deserialize (PDict tvs) = Ok v /\ dict_get out f = Some v) /\
     (forall e, type_deserialize (PDict tvs) = Err e ->
        exists e', dynamo_to_dict json_loads (PDict kvs) row_mapper false nojson = Err e')).
Proof.
  split.
  - intros json_loads kvs pre post nojson f t tvs Ht Hkv Hne Htv.
    assert (Htr : py_truthy (PDict tvs) = true)
      by (destruct tvs; [contradiction|reflexivity]).
    assert (Hstep : forall acc,
              decode_mapped_field json_loads (PDict kvs) (pre ++ (f, t) :: post)%list
                                  nojson acc (f, t)
              = Err (if String.eqb t "N" then TypeError else AttributeError)).
    { intro acc. unfold decode_mapped_field, py_get. rewrite Hkv. cbn [bind].
      rewrite Htr, Htv. destruct Ht as [-> | [-> | ->]]; reflexivity. }
    split; [exact Hstep|]. split.
    + unfold dynamo_to_dict. cbn [negb].
      apply (for_res_err _ _ (f, t)); [apply in_or_app; right; now left|].
      intro acc. rewrite Hstep. eexists; reflexivity.
    + intros acc Hpre. unfold dynamo_to_dict. cbn [negb].
      rewrite for_res_app, Hpre. cbn [bind for_res]. rewrite Hstep. reflexivity.
  - intros json_loads kvs row_mapper nojson f t tvs Hnd Hk HN HS HM Hkv Hne.
    assert (Htr : py_truthy (PDict tvs) = true)
      by (destruct tvs; [contradiction|reflexivity]).
    pose proof (decode_mapped_field_declared json_loads kvs row_mapper nojson f t _ Hkv Htr)
      as Hd.
    rewrite (decode_declared_other _ _ _ _ _ HN HS HM) in Hd.
    split.
    + intros out Hrun.
      destruct (decode_default_declared_value _ _ _ _ _ _ _ _ Hnd Hrun Hk Hkv Htr)
        as [v [Hv Hg]].
      rewrite (decode_declared_other _ _ _ _ _ HN HS HM) in Hv. eauto.
    + intros e He. rewrite He in Hd. cbn [bind] in Hd.
      exact (decode_default_raises _ _ _ _ _ _ _ Hk Hd).
Qed.

Lemma C10_tag_mismatch_witness :
  dynamo_to_dict json_loads_model (PDict [("f", PDict [("S", PStr "x")])])
                 [("f", "N")] false false = Err TypeError /\
  dynamo_to_dict json_loads_model (PDict [("f", PDict [("N", PStr "1")])])
                 [("f", "S")] false false = Err AttributeError /\
  (exists v, type_deserialize (PDict [("S", PStr "x")]) = Ok v /\
             dict_get [("f", PStr "x")] "f" = Some v) /\
  (exists e', dynamo_to_dict json_loads_model (PDict [("f", PDict [("FOO", PInt 1)])])
                             [("f", "BOOL")] false false = Err e').
Proof.
  destruct C10_tag_mismatch as [H1 H2].
  split; [|split; [|split]].
  - apply (proj2 (proj2 (H1 json_loads_model [("f", PDict [("S", PStr "x")])] [] []
                          false "f" "N" [("S", PStr "x")]
                          (or_introl eq_refl) eq_refl ltac:(discriminate) eq_refl)) []).
    reflexivity.
  - apply (proj2 (proj2 (H1 json_loads_model [("f", PDict [("N", PStr "1")])] [] []
                          false "f" "S" [("N", PStr "1")]
                          (or_intror (or_introl eq_refl)) eq_refl ltac:(discriminate)
                          eq_refl)) []).
    reflexivity.
  - apply (proj1 (H2 json_loads_model [("f", PDict [("S", PStr "x")])] [("f", "BOOL")] false
                    "f" "BOOL" [("S", PStr "x")]
                    ltac:(repeat constructor; simpl; tauto) eq_refl
                    ltac:(discriminate) ltac:(discriminate) ltac:(discriminate)
                    eq_refl ltac:(discriminate))).
    vm_compute. reflexivity.
  - apply (proj2 (H2 json_loads_model [("f", PDict [("FOO", PInt 1)])] [("f", "BOOL")] false
                    "f" "BOOL" [("FOO", PInt 1)]
                    ltac:(repeat constructor; simpl; tauto) eq_refl
                    ltac:(discriminate) ltac:(discriminate) ltac:(discriminate)
                    eq_refl ltac:(discriminate)) TypeError).
    reflexivity.
Defined.

(** C10: a field declared [BOOL] carrying [{S: 'x'}] does not raise; it
    is decoded with the wire tag [S]. *)
Lemma C10_counterexample :
  dynamo_to_dict json_loads_model (PDict [("f", PDict [("S", PStr "x")])])
                 [("f", "BOOL")] false false = Ok [("f", PStr "x")].
Proof. vm_compute. reflexivity. Qed.
